(** * APEL_Scan: the instrument firmware of [APEL_Scan/main.c]

    A shallow embedding of the ATmega328P program: the push-button mode
    machine of [main], the ADC helpers, the LCD helpers and [print_volt],
    followed by the properties of the voltage reconstruction, of the
    voltage formatting and of the mode machine.

    Target conventions (avr-gcc for the ATmega328P, named in the header of
    the source): [int] is 16 bits wide, [float] and [double] are both the
    IEEE 754 binary32 format, arithmetic rounds to nearest, ties to even. *)

From Stdlib Require Import ZArith List Bool String Ascii Lia.
From Stdlib Require Import QArith Qround Qabs.
From Stdlib Require Import Floats.SpecFloat.
Import ListNotations.
Local Open Scope Z_scope.

(** ** C integers of the target *)

Module C.

Definition INT_MIN : Z := -32768.
Definition INT_MAX : Z := 32767.

(** An [int] value is a [Z] inside [INT_MIN .. INT_MAX]. *)
Definition in_int (z : Z) : bool := (INT_MIN <=? z) && (z <=? INT_MAX).

(** [uint16_t]: reduction modulo 2^16. *)
Definition to_uint16 (z : Z) : Z := z mod 65536.

(** [uint8_t] and the 8-bit I/O registers: reduction modulo 2^8. *)
Definition to_uint8 (z : Z) : Z := z mod 256.

(** Conversion of a [uint16_t] to [int] (the value wraps around). *)
Definition uint16_to_int (z : Z) : Z :=
  let u := to_uint16 z in if u <=? INT_MAX then u else u - 65536.

End C.

(** ** binary32 floating point *)

Module F32.

Definition prec : Z := 24.
Definition emax : Z := 128.

Definition float : Type := spec_float.

Definition fadd : float -> float -> float := SFadd prec emax.
Definition fsub : float -> float -> float := SFsub prec emax.
Definition fmul : float -> float -> float := SFmul prec emax.
Definition fdiv : float -> float -> float := SFdiv prec emax.
Definition fleb : float -> float -> bool := SFleb.
Definition fltb : float -> float -> bool := SFltb.
Definition valid : float -> bool := valid_binary prec emax.

(** Conversion of an integer to floating point (rounded when the integer
    has more than 24 significant bits). *)
Definition of_Z (z : Z) : float := binary_normalize prec emax z 0 false.

(** A decimal literal [n/d] (with [d] a power of ten): the binary32
    number nearest to the quotient. *)
Definition dec_lit (n d : Z) : float := fdiv (of_Z n) (of_Z d).

(** The integer part of a finite number, rounded toward zero. *)
Definition trunc (x : float) : option Z :=
  match x with
  | S754_zero _ => Some 0
  | S754_finite s m e =>
      Some (cond_Zopp s (if 0 <=? e then Zpos m * 2 ^ e
                         else Zpos m / 2 ^ (- e)))
  | _ => None
  end.

(** The cast [(int) x]: defined only when the integer part fits [int]
    (C11 6.3.1.4); [None] stands for undefined behaviour. *)
Definition to_int (x : float) : option Z :=
  match trunc x with
  | Some t => if C.in_int t then Some t else None
  | None => None
  end.

(** The value of a finite number counted in units of 2^-149, the
    spacing of the smallest binary32 numbers. *)
Definition units (x : float) : Z :=
  match x with
  | S754_finite s m e => cond_Zopp s (Zpos m * 2 ^ (e + 149))
  | _ => 0
  end.

End F32.

Import F32.

(** The floating constants written in the source. *)
Definition c_1_1 : float := Eval vm_compute in dec_lit 11 10.
Definition c_495_2 : float := Eval vm_compute in dec_lit 4952 10.
Definition c_101_65 : float := Eval vm_compute in dec_lit 10165 100.
Definition c_1023_0 : float := Eval vm_compute in dec_lit 10230 10.
Definition c_5_0 : float := Eval vm_compute in dec_lit 50 10.
Definition c_498_1 : float := Eval vm_compute in dec_lit 4981 10.
Definition c_101_8 : float := Eval vm_compute in dec_lit 1018 10.

(** ** The hardware seen by the program *)

(** What the display latches on a falling edge of its enable line. *)
Inductive LcdEvent : Type :=
| LcdCmd (byte : Z)
| LcdData (byte : Z).

(** The I/O registers the program writes, and the bytes latched by the
    display so far (oldest first). *)
Record Hw : Type := mkHw {
  DDRB : Z;
  DDRD : Z;
  PORTB : Z;
  PORTD : Z;
  ADMUX : Z;
  ADCSRA : Z;
  lcd : list LcdEvent
}.

(** What the outside world presents during one pass of the main loop:
    the pin register of port D (the push buttons, steady while the [if]
    chain reads them) and the content of the ADC data register once the
    conversion of that pass has completed. *)
Record Inputs : Type := mkInputs {
  PIND : Z;
  ADC : Z
}.

(** Bit numbers from the device header of the ATmega328P. *)
Definition PD0 : Z := 0.
Definition PD1 : Z := 1.
Definition PD2 : Z := 2.
Definition PD3 : Z := 3.
Definition PD4 : Z := 4.
Definition PD5 : Z := 5.
Definition REFS0 : Z := 6.
Definition REFS1 : Z := 7.
Definition ADEN : Z := 7.
Definition ADSC : Z := 6.
Definition ADIF : Z := 4.
Definition ADPS2 : Z := 2.
Definition ADPS1 : Z := 1.
Definition ADPS0 : Z := 0.

(** The pin assignment of the source. *)
Definition rs : Z := PD3.
Definition rw : Z := PD4.
Definition en : Z := PD5.
Definition start : Z := PD0.
Definition stop : Z := PD1.
Definition readBias : Z := PD2.

(** ** Computations on the hardware

    A computation takes the hardware state and either returns a result
    with the new state, or is undefined ([None]). *)

Definition IO (A : Type) : Type := Hw -> option (A * Hw).

Definition ret {A : Type} (a : A) : IO A := fun h => Some (a, h).

Definition bind {A B : Type} (c : IO A) (k : A -> IO B) : IO B :=
  fun h => match c h with
           | Some (a, h') => k a h'
           | None => None
           end.

Definition undefined {A : Type} : IO A := fun _ => None.

Definition lift {A : Type} (o : option A) : IO A :=
  match o with
  | Some a => ret a
  | None => undefined
  end.

Declare Scope io_scope.
Delimit Scope io_scope with io.
Notation "x <- c ;; k" := (bind c (fun x => k))
  (at level 61, c at next level, right associativity) : io_scope.
Notation "c ;; k" := (bind c (fun _ => k))
  (at level 61, right associativity) : io_scope.
Local Open Scope io_scope.

(** Register writes.  The display is wired to port B (data) and to the
    lines [rs] and [en] of port D: it latches port B when [en] falls, as
    a command when [rs] is low and as data when [rs] is high. *)

Definition write_DDRB (v : Z) : IO unit :=
  fun h => Some (tt, mkHw (C.to_uint8 v) (DDRD h) (PORTB h) (PORTD h)
                          (ADMUX h) (ADCSRA h) (lcd h)).

Definition write_DDRD (v : Z) : IO unit :=
  fun h => Some (tt, mkHw (DDRB h) (C.to_uint8 v) (PORTB h) (PORTD h)
                          (ADMUX h) (ADCSRA h) (lcd h)).

Definition write_PORTB (v : Z) : IO unit :=
  fun h => Some (tt, mkHw (DDRB h) (DDRD h) (C.to_uint8 v) (PORTD h)
                          (ADMUX h) (ADCSRA h) (lcd h)).

Definition latched (old new : Z) (h : Hw) : list LcdEvent :=
  if Z.testbit old en && negb (Z.testbit new en) then
    [if Z.testbit new rs then LcdData (PORTB h) else LcdCmd (PORTB h)]
  else [].

Definition write_PORTD (v : Z) : IO unit :=
  fun h => let v' := C.to_uint8 v in
           Some (tt, mkHw (DDRB h) (DDRD h) (PORTB h) v'
                          (ADMUX h) (ADCSRA h)
                          (lcd h ++ latched (PORTD h) v' h)).

Definition write_ADMUX (v : Z) : IO unit :=
  fun h => Some (tt, mkHw (DDRB h) (DDRD h) (PORTB h) (PORTD h)
                          (C.to_uint8 v) (ADCSRA h) (lcd h)).

(** ADCSRA holds the interrupt flag ADIF of the converter, which the
    program does not store into: writing 1 to it clears it and writing 0
    leaves it as it is.  The other bits are stored as written. *)
Definition stored_ADCSRA (old v : Z) : Z :=
  Z.lor (Z.land v (Z.lnot (Z.shiftl 1 ADIF)))
        (Z.land (Z.land old (Z.shiftl 1 ADIF)) (Z.lnot v)).

Definition write_ADCSRA (v : Z) : IO unit :=
  fun h => Some (tt, mkHw (DDRB h) (DDRD h) (PORTB h) (PORTD h)
                          (ADMUX h) (stored_ADCSRA (ADCSRA h) (C.to_uint8 v))
                          (lcd h)).

(** The end of a conversion: the converter clears the start bit ADSC and
    sets its flag ADIF. *)
Definition conversion_complete : IO unit :=
  fun h => Some (tt, mkHw (DDRB h) (DDRD h) (PORTB h) (PORTD h) (ADMUX h)
                          (Z.lor (Z.land (ADCSRA h)
                                         (Z.lnot (Z.shiftl 1 ADSC)))
                                 (Z.shiftl 1 ADIF))
                          (lcd h)).

Definition read_ADMUX : IO Z := fun h => Some (ADMUX h, h).
Definition read_ADCSRA : IO Z := fun h => Some (ADCSRA h, h).

(** [_delay_ms]: the passing of time changes nothing the program sees. *)
Definition _delay_ms (ms : Z) : IO unit := ret tt.

(** ** The LCD helpers *)

Definition lcd_cmd (cmd_out : Z) : IO unit :=
  write_PORTB cmd_out ;;
  write_PORTD (Z.lor (Z.lor (Z.shiftl 0 rs) (Z.shiftl 0 rw)) (Z.shiftl 1 en)) ;;
  _delay_ms 2 ;;
  write_PORTD (Z.lor (Z.lor (Z.shiftl 0 rs) (Z.shiftl 0 rw)) (Z.shiftl 0 en)) ;;
  _delay_ms 2.

Definition lcd_data (data_out : Z) : IO unit :=
  write_PORTB data_out ;;
  write_PORTD (Z.lor (Z.lor (Z.shiftl 1 rs) (Z.shiftl 0 rw)) (Z.shiftl 1 en)) ;;
  _delay_ms 2 ;;
  write_PORTD (Z.lor (Z.lor (Z.shiftl 1 rs) (Z.shiftl 0 rw)) (Z.shiftl 0 en)) ;;
  _delay_ms 2.

Definition char_code (c : ascii) : Z := Z.of_N (N_of_ascii c).

(** [lcd_str]: the characters of the string up to its terminator, which
    is the first character 0 in it, or else the end of the string. *)
Fixpoint lcd_str (str : string) : IO unit :=
  match str with
  | EmptyString => ret tt
  | String c rest =>
      if char_code c =? 0 then ret tt
      else (lcd_data (char_code c) ;; lcd_str rest)
  end.

Definition lcd_init : IO unit :=
  lcd_cmd 0x38 ;;
  lcd_cmd 0x0C ;;
  lcd_cmd 0x01 ;;
  lcd_cmd 0x80.

Definition print_APEL : IO unit :=
  lcd_cmd 0x81 ;;
  lcd_data 0x00 ;;
  lcd_data 0x2E ;;
  lcd_data 0x01 ;;
  lcd_data 0x2E ;;
  lcd_data 0x02 ;;
  lcd_data 0x2E ;;
  lcd_data 0x03 ;;
  lcd_str ". Scan".

Definition welcome_screen : IO unit :=
  print_APEL ;;
  lcd_cmd 0xC3 ;;
  lcd_str "UNLV  2017" ;;
  _delay_ms 10.

Fixpoint lcd_data_all (rows : list Z) : IO unit :=
  match rows with
  | [] => ret tt
  | r :: rows' => lcd_data r ;; lcd_data_all rows'
  end.

Definition store_cust_chars : IO unit :=
  lcd_cmd 0x40 ;;
  lcd_data_all [0x03; 0x07; 0x0B; 0x13; 0x1F; 0x13; 0x13; 0x00] ;;
  lcd_cmd 0x48 ;;
  lcd_data_all [0x1E; 0x1B; 0x1B; 0x1E; 0x18; 0x18; 0x18; 0x00] ;;
  lcd_cmd 0x50 ;;
  lcd_data_all [0x1E; 0x18; 0x1E; 0x18; 0x18; 0x1E; 0x1E; 0x00] ;;
  lcd_cmd 0x58 ;;
  lcd_data_all [0x10; 0x10; 0x10; 0x10; 0x10; 0x1E; 0x1E; 0x00].

(** ** The ADC helpers *)

Definition adc_init : IO unit :=
  write_ADMUX (Z.lor (Z.shiftl 0 REFS1) (Z.shiftl 1 REFS0)) ;;
  write_ADCSRA (Z.lor (Z.lor (Z.lor (Z.shiftl 0 ADPS2) (Z.shiftl 1 ADPS1))
                             (Z.shiftl 1 ADPS0)) (Z.shiftl 1 ADEN)).

Definition adc_initBG : IO unit :=
  write_ADMUX (Z.lor (Z.shiftl 1 REFS1) (Z.shiftl 1 REFS1)) ;;
  write_ADCSRA (Z.lor (Z.lor (Z.lor (Z.shiftl 0 ADPS2) (Z.shiftl 1 ADPS1))
                             (Z.shiftl 1 ADPS0)) (Z.shiftl 1 ADEN)).

(** [read_adc]: select the channel, start a conversion, wait until the
    start bit reads as 0, return the data register.  The converter is
    trusted to complete: the busy wait ends when the conversion does,
    with the result of the conversion in the data register. *)
Definition read_adc (inp : Inputs) (channel : Z) : IO Z :=
  m <- read_ADMUX ;;
  write_ADMUX (Z.lor (Z.land m 0xF0) (Z.land (C.to_uint8 channel) 0x0F)) ;;
  a <- read_ADCSRA ;;
  write_ADCSRA (Z.lor a (Z.shiftl 1 ADSC)) ;;
  conversion_complete ;;
  ret (C.to_uint16 (ADC inp)).

(** ** [sprintf] with the conversion [%u] *)

Definition digit_char (d : Z) : ascii := ascii_of_N (Z.to_N (48 + d)).

(** Decimal digits of a non-negative number, most significant first;
    [fuel] bounds the number of digits. *)
Fixpoint utoa_aux (fuel : nat) (n : Z) (acc : string) : string :=
  match fuel with
  | O => acc
  | S fuel' =>
      let acc' := String (digit_char (n mod 10)) acc in
      if n / 10 =? 0 then acc' else utoa_aux fuel' (n / 10) acc'
  end.

(** [%u] applied to an [int] argument: the argument is read as an
    unsigned 16-bit number, which has at most five digits. *)
Definition utoa (n : Z) : string := utoa_aux 5 (C.to_uint16 n) EmptyString.

Fixpoint sprintf (fmt : string) (args : list Z) : string :=
  match fmt with
  | EmptyString => EmptyString
  | String c rest =>
      match c, rest with
      | "%"%char, String "u"%char rest' =>
          match args with
          | a :: args' => (utoa a ++ sprintf rest' args')%string
          | [] => sprintf rest' []
          end
      | _, _ => String c (sprintf rest args)
      end
  end.

(** ** [print_volt] *)

(** The text [print_volt] builds in its buffer [number[16]]; writing past
    the buffer is undefined. *)
Definition format_volt (voltage : float) : option string :=
  match to_int voltage with
  | None => None
  | Some intV =>
      let diffV := fsub voltage (of_Z intV) in
      match to_int (fmul diffV (of_Z 1000)) with
      | None => None
      | Some decV =>
          let number :=
            if decV <? 10 then sprintf "%u.00%u V" [intV; decV]
            else if decV <? 100 then sprintf "%u.0%u V" [intV; decV]
            else sprintf "%u.%u V" [intV; decV] in
          if (Z.of_nat (String.length number) <? 16) then Some number
          else None
      end
  end.

Definition print_volt (voltage : float) : IO unit :=
  number <- lift (format_volt voltage) ;;
  lcd_str number.

(** ** [main] *)

(** The local variables of [main]; [bias] has no initial value. *)
Record Locals : Type := mkLocals {
  peakVoltage : Z;
  Vread : Z;
  bias : option float;
  peak : float;
  state : Z
}.

Definition set_peakVoltage (v : Z) (l : Locals) : Locals :=
  mkLocals v (Vread l) (bias l) (peak l) (state l).
Definition set_Vread (v : Z) (l : Locals) : Locals :=
  mkLocals (peakVoltage l) v (bias l) (peak l) (state l).
Definition set_bias (v : float) (l : Locals) : Locals :=
  mkLocals (peakVoltage l) (Vread l) (Some v) (peak l) (state l).
Definition set_peak (v : float) (l : Locals) : Locals :=
  mkLocals (peakVoltage l) (Vread l) (bias l) v (state l).
Definition set_state (v : Z) (l : Locals) : Locals :=
  mkLocals (peakVoltage l) (Vread l) (bias l) (peak l) v.

(** The two conversions of a 10-bit code to volts, as written in the
    STOP branch and in [case 3]. *)
Definition peak_volts (peakVoltage : Z) : float :=
  fdiv (fmul (fmul (of_Z peakVoltage) c_1_1)
             (fdiv (fadd c_495_2 c_101_65) c_101_65))
       c_1023_0.

Definition bias_volts (Vread : Z) : float :=
  fdiv (fmul (fmul (of_Z Vread) c_5_0)
             (fdiv (fadd c_498_1 c_101_8) c_101_8))
       c_1023_0.

(** The registers after reset and the locals as declared. *)
Definition reset_hw : Hw := mkHw 0 0 0 0 0 0 [].
Definition declared_locals : Locals := mkLocals 0 0 None (S754_zero false) 0.

(** The statements of [main] before the loop. *)
Definition main_setup : IO Locals :=
  write_DDRB 0xFF ;;
  write_DDRD 0xF8 ;;
  lcd_init ;;
  store_cust_chars ;;
  welcome_screen ;;
  ret declared_locals.

(** The [if / else if] chain on the push buttons. *)
Definition buttons (inp : Inputs) (l : Locals) : IO Locals :=
  if Z.land (PIND inp) 0x01 =? 0x01 then
    adc_initBG ;;
    let l := set_state 1 l in
    let l := set_peakVoltage 0 l in
    lcd_init ;;
    print_APEL ;;
    lcd_str ". Scan" ;;
    lcd_cmd 0xC3 ;;
    lcd_str "Running..." ;;
    ret l
  else if Z.land (PIND inp) 0x02 =? 0x02 then
    let l := set_state 2 l in
    lcd_init ;;
    lcd_cmd 0x82 ;;
    lcd_str "Peak Voltage" ;;
    let l := set_peak (peak_volts (peakVoltage l)) l in
    lcd_cmd 0xC0 ;;
    print_volt (peak l) ;;
    ret l
  else if Z.land (PIND inp) 0x04 =? 0x04 then
    adc_init ;;
    let l := set_state 3 l in
    lcd_init ;;
    lcd_cmd 0x83 ;;
    lcd_str "SiPM Bias" ;;
    lcd_cmd 0xC2 ;;
    ret l
  else ret l.

(** The [switch] on the state. *)
Definition mode_action (inp : Inputs) (l : Locals) : IO Locals :=
  if state l =? 1 then
    v <- read_adc inp 7 ;;
    let l := set_Vread (C.uint16_to_int v) l in
    ret (if Vread l >? peakVoltage l then set_peakVoltage (Vread l) l else l)
  else if state l =? 3 then
    v <- read_adc inp 1 ;;
    let l := set_Vread (C.uint16_to_int v) l in
    let l := set_bias (bias_volts (Vread l)) l in
    lcd_cmd 0xC0 ;;
    match bias l with
    | Some b => print_volt b ;; ret l
    | None => undefined
    end
  else ret l.

(** One pass of the body of [while(1)]. *)
Definition loop_body (inp : Inputs) (l : Locals) : IO Locals :=
  l' <- buttons inp l ;;
  mode_action inp l'.

(** Several passes, one per element of [inps]. *)
Fixpoint passes (inps : list Inputs) (l : Locals) : IO Locals :=
  match inps with
  | [] => ret l
  | inp :: inps' => l' <- loop_body inp l ;; passes inps' l'
  end.

(** The program from reset through the passes [inps]. *)
Definition main (inps : list Inputs) : option (Locals * Hw) :=
  (l <- main_setup ;; passes inps l) reset_hw.

(** ** The vocabulary of the specification *)

Inductive OperatingMode : Type := Idle | Acquiring | Stopped | ReadingBias.

Definition mode_of (state : Z) : option OperatingMode :=
  if state =? 0 then Some Idle
  else if state =? 1 then Some Acquiring
  else if state =? 2 then Some Stopped
  else if state =? 3 then Some ReadingBias
  else None.

Record CalibrationProfile : Type := mkProfile {
  referenceVoltage : float;
  dividerNumerator : float;
  dividerDenominator : float;
  fullScaleCode : float
}.

(** The reconstruction formula in the words of the specification:
    sample * referenceVoltage * (dividerNumerator / dividerDenominator)
    / fullScaleCode. *)
Definition reconstruct (sample : Z) (p : CalibrationProfile) : float :=
  fdiv (fmul (fmul (of_Z sample) (referenceVoltage p))
             (fdiv (dividerNumerator p) (dividerDenominator p)))
       (fullScaleCode p).

Definition peakProfile : CalibrationProfile :=
  mkProfile (dec_lit 11 10)
            (fadd (dec_lit 4952 10) (dec_lit 10165 100))
            (dec_lit 10165 100)
            (of_Z 1023).

Definition biasProfile : CalibrationProfile :=
  mkProfile (of_Z 5)
            (fadd (dec_lit 4981 10) (dec_lit 1018 10))
            (dec_lit 1018 10)
            (of_Z 1023).


(** The buttons as the specification names them: a button is active when
    the test of its branch in [main] succeeds. *)
Definition start_active (inp : Inputs) : bool := Z.land (PIND inp) 0x01 =? 0x01.
Definition stop_active (inp : Inputs) : bool := Z.land (PIND inp) 0x02 =? 0x02.
Definition readBias_active (inp : Inputs) : bool :=
  Z.land (PIND inp) 0x04 =? 0x04.
Definition no_button (inp : Inputs) : bool :=
  negb (start_active inp) && negb (stop_active inp)
  && negb (readBias_active inp).

(** The sample a pass obtains from the converter, as stored in [Vread]. *)
Definition sample_of (inp : Inputs) : Z :=
  C.uint16_to_int (C.to_uint16 (ADC inp)).

(** The converter delivers 10-bit codes. *)
Definition adc_ok (inp : Inputs) : bool := (0 <=? ADC inp) && (ADC inp <=? 1023).

(** The bytes the display latches for a text. *)
Definition lcd_text (s : string) : list LcdEvent :=
  map (fun c => LcdData (char_code c)) (list_ascii_of_string s).

(** The part of a string that C sees: what comes before the first
    character 0. *)
Fixpoint c_string (s : string) : string :=
  match s with
  | EmptyString => EmptyString
  | String c rest =>
      if char_code c =? 0 then EmptyString else String c (c_string rest)
  end.

(** No character of the string is the terminator. *)
Definition nul_free (s : string) : bool :=
  forallb (fun c => negb (char_code c =? 0)) (list_ascii_of_string s).

(** What [lcd_init] sends. *)
Definition lcd_init_events : list LcdEvent :=
  [LcdCmd 0x38; LcdCmd 0x0C; LcdCmd 0x01; LcdCmd 0x80].

(** A pass that samples [adc] with no button pressed. *)
Definition idle_inp (adc : Z) : Inputs := mkInputs 0 adc.


(** The screens written by the three button branches. *)
Definition apel_events : list LcdEvent :=
  [LcdCmd 0x81; LcdData 0x00; LcdData 0x2E; LcdData 0x01; LcdData 0x2E;
   LcdData 0x02; LcdData 0x2E; LcdData 0x03] ++ lcd_text ". Scan".

Definition running_screen : list LcdEvent :=
  lcd_init_events ++ apel_events ++ lcd_text ". Scan"
  ++ [LcdCmd 0xC3] ++ lcd_text "Running...".

Definition peak_screen (shown : string) : list LcdEvent :=
  lcd_init_events ++ [LcdCmd 0x82] ++ lcd_text "Peak Voltage"
  ++ [LcdCmd 0xC0] ++ lcd_text shown.

Definition bias_screen : list LcdEvent :=
  lcd_init_events ++ [LcdCmd 0x83] ++ lcd_text "SiPM Bias" ++ [LcdCmd 0xC2].

Definition bias_refresh (shown : string) : list LcdEvent :=
  [LcdCmd 0xC0] ++ lcd_text shown.

(** [yields c a evs]: from every hardware state, [c] is defined, returns
    [a], and makes the display latch exactly [evs]. *)
Definition yields {A : Type} (c : IO A) (a : A) (evs : list LcdEvent) : Prop :=
  forall h, exists h', c h = Some (a, h') /\ lcd h' = lcd h ++ evs.

(** The state after a pass, as decided by the buttons alone. *)
Definition next_state (inp : Inputs) (st : Z) : Z :=
  if start_active inp then 1
  else if stop_active inp then 2
  else if readBias_active inp then 3
  else st.

(** The accumulator holds a 10-bit code. *)
Definition acc_ok (l : Locals) : Prop := 0 <= peakVoltage l <= 1023.

(** [all_from start count f]: [f] holds at [start], [start + 1], ...,
    [count] numbers in all. *)
Fixpoint all_from (start : Z) (count : nat) (f : Z -> bool) : bool :=
  match count with
  | O => true
  | S count' => f start && all_from (start + 1) count' f
  end.

(** [f] holds at every number from 0 up to, not including, [n]. *)
Definition all_below (n : Z) (f : Z -> bool) : bool :=
  all_from 0 (Z.to_nat n) f.

(** [format_volt] is defined on the conversion of every 10-bit code. *)
Definition shown_on_codes (conv : Z -> float) : bool :=
  all_below 1024 (fun s => match format_volt (conv s) with
                           | Some _ => true
                           | None => false
                           end).

(** The hardware when the loop is entered. *)
Definition power_up_hw : Hw :=
  Eval vm_compute in
    match main_setup reset_hw with
    | Some (_, h) => h
    | None => reset_hw
    end.

(** [shifted k N mrs]: the record [mrs] is [N] shifted right by [k] bits;
    its round bit says whether what was shifted out is at least one half
    of the last place, its sticky bit whether it is neither nothing nor
    exactly one half. *)
Definition shifted (k N : Z) (mrs : shr_record) : Prop :=
  0 <= shr_m mrs
  /\ exists rem,
       N = shr_m mrs * 2 ^ k + rem
       /\ 0 <= rem < 2 ^ k
       /\ (shr_r mrs = true <-> 2 ^ k <= 2 * rem)
       /\ (shr_s mrs = true <-> rem <> 0 /\ 2 * rem <> 2 ^ k).

(** The three decimal digits of a number below 1000. *)
Definition three_digits (d : Z) : string :=
  String (digit_char (d / 100))
    (String (digit_char (d / 10 mod 10))
       (String (digit_char (d mod 10)) EmptyString)).

(** What the three [sprintf] calls of [print_volt] write after the
    integer part. *)
Definition fraction_text (decV : Z) : string :=
  if decV <? 10 then ".00" ++ utoa decV ++ " V"
  else if decV <? 100 then ".0" ++ utoa decV ++ " V"
  else "." ++ utoa decV ++ " V".

(** The number a string of decimal digits denotes. *)
Fixpoint atou_aux (s : string) (acc : Z) : Z :=
  match s with
  | EmptyString => acc
  | String c rest => atou_aux rest (10 * acc + (char_code c - 48))
  end.

Definition atou (s : string) : Z := atou_aux s 0.



(** [x] is a positive binary32 number [M * 2^e] within half of its last
    place of the fraction [n / d]. *)
Definition nearest_to (n d : Z) (x : float) : bool :=
  match x with
  | S754_finite false M e =>
      (e <? 0) && (2 * Z.abs (n * 2 ^ (- e) - Zpos M * d) <=? d)
  | _ => false
  end.

(** ** The peak conversion in another binary format

    The same expression with the format left open, to compare the
    target's binary32 with binary64. *)
Section Format.

Variables fprec femax : Z.

Definition lit_in (n d : Z) : spec_float :=
  SFdiv fprec femax (binary_normalize fprec femax n 0 false)
                    (binary_normalize fprec femax d 0 false).

Definition peak_ratio_in : spec_float :=
  SFdiv fprec femax
        (SFadd fprec femax (lit_in 4952 10) (lit_in 10165 100))
        (lit_in 10165 100).

Definition peak_volts_in (peakVoltage : Z) : spec_float :=
  SFdiv fprec femax
        (SFmul fprec femax
               (SFmul fprec femax
                      (binary_normalize fprec femax peakVoltage 0 false)
                      (lit_in 11 10))
               peak_ratio_in)
        (lit_in 10230 10).

Definition peak_product_in : spec_float :=
  SFmul fprec femax (lit_in 11 10) peak_ratio_in.

End Format.

(** ** Floating-point tolerance *)





(** ** The hardware after the display has latched a byte *)

(** The helpers [lcd_cmd] and [lcd_data] leave port B at the byte sent and
    port D at 0 (after a command) or at 8, the line [rs] (after data). *)
Definition after_latch (ev : LcdEvent) (h : Hw) : Hw :=
  match ev with
  | LcdCmd b =>
      mkHw (DDRB h) (DDRD h) b 0 (ADMUX h) (ADCSRA h) (lcd h ++ [ev])
  | LcdData b =>
      mkHw (DDRB h) (DDRD h) b 8 (ADMUX h) (ADCSRA h) (lcd h ++ [ev])
  end.

Definition after_events (evs : list LcdEvent) (h : Hw) : Hw :=
  fold_left (fun h ev => after_latch ev h) evs h.

(** The two registers of the converter. *)
Definition adc_regs (h : Hw) : Z * Z := (ADMUX h, ADCSRA h).

(** [effect c a f]: whenever [c] is defined it returns [a] and turns the
    converter registers [r] into [f r]. *)
Definition effect {A : Type} (c : IO A) (a : A) (f : Z * Z -> Z * Z) : Prop :=
  forall h a' h',
    c h = Some (a', h') -> a' = a /\ adc_regs h' = f (adc_regs h).

(** ADCSRA after [read_adc] has started a conversion from the content
    [a] and the conversion has completed. *)
Definition converted (a : Z) : Z :=
  Z.lor (Z.land (stored_ADCSRA a (C.to_uint8 (Z.lor a (Z.shiftl 1 ADSC))))
                (Z.lnot (Z.shiftl 1 ADSC)))
        (Z.shiftl 1 ADIF).

(** What [read_adc] does to the converter registers. *)
Definition adc_select (channel : Z) (r : Z * Z) : Z * Z :=
  (Z.lor (Z.land (fst r) 0xF0) (channel mod 16), converted (snd r)).

(** The converter registers that go with each state along a run. *)
Definition adc_configured (st : Z) (r : Z * Z) : Prop :=
  (st = 0 /\ r = (0, 0))
  \/ (st = 1 /\ r = (0x87, 0x93))
  \/ (st = 2 /\ (r = (0, 0) \/ r = (0x87, 0x93) \/ r = (0x41, 0x93)))
  \/ (st = 3 /\ r = (0x41, 0x93)).

(** ** The calibration in exact arithmetic *)

(** The two conversions over the rationals, with the decimals of the
    source taken exactly. *)
Definition exact_peak_volts (s : Z) : Q :=
  (inject_Z s * 1.1 * ((495.2 + 101.65) / 101.65) / 1023)%Q.

Definition exact_bias_volts (s : Z) : Q :=
  (inject_Z s * 5.0 * ((498.1 + 101.8) / 101.8) / 1023)%Q.

(** A voltage cut to whole millivolts, and the text for a number of
    millivolts. *)
Definition millivolts (v : Q) : Z := Qfloor (1000 * v)%Q.

Definition millivolt_text (mv : Z) : string :=
  utoa (mv / 1000) ++ "." ++ three_digits (mv mod 1000) ++ " V".

Definition shows_text (v : float) (txt : string) : bool :=
  match format_volt v with
  | Some t => String.eqb t txt
  | None => false
  end.

(** The number a text shows when its digits are read in a row. *)
Definition is_digit (c : ascii) : bool :=
  (48 <=? char_code c) && (char_code c <=? 57).

Fixpoint digits_only (s : string) : string :=
  match s with
  | EmptyString => EmptyString
  | String c rest =>
      if is_digit c then String c (digits_only rest) else digits_only rest
  end.

Definition number_shown (txt : string) : Z := atou (digits_only txt).

Definition shown_value (conv : Z -> float) (s : Z) : option Z :=
  option_map number_shown (format_volt (conv s)).

(** The characters [print_volt] can write. *)
Definition allowed_char (c : ascii) : bool :=
  is_digit c || Ascii.eqb c "." || Ascii.eqb c " " || Ascii.eqb c "V".

(** * Properties *)

(** ** The effect of the helpers on the display *)


Lemma yields_ret {A : Type} (a : A) : yields (ret a) a [].
Proof. intros h. exists h. split; [reflexivity | now rewrite app_nil_r]. Qed.

Lemma yields_bind {A B : Type} (c : IO A) (k : A -> IO B) a b e1 e2 :
  yields c a e1 -> yields (k a) b e2 -> yields (bind c k) b (e1 ++ e2).
Proof.
  intros Hc Hk h. destruct (Hc h) as (h1 & E1 & L1).
  destruct (Hk h1) as (h2 & E2 & L2). exists h2. unfold bind.
  rewrite E1. split; [exact E2 | now rewrite L2, L1, app_assoc].
Qed.

Lemma yields_eq {A : Type} (c : IO A) a e e' :
  yields c a e -> e = e' -> yields c a e'.
Proof. now intros H <-. Qed.

Lemma yields_silent {A : Type} (c : IO A) a :
  (forall h, exists h', c h = Some (a, h') /\ lcd h' = lcd h) ->
  yields c a [].
Proof.
  intros H h. destruct (H h) as (h' & E & L). exists h'.
  now rewrite app_nil_r.
Qed.

Lemma yields_write_PORTB v : yields (write_PORTB v) tt [].
Proof. apply yields_silent. intros h. eexists. split; reflexivity. Qed.

Lemma yields_write_ADMUX v : yields (write_ADMUX v) tt [].
Proof. apply yields_silent. intros h. eexists. split; reflexivity. Qed.

Lemma yields_write_ADCSRA v : yields (write_ADCSRA v) tt [].
Proof. apply yields_silent. intros h. eexists. split; reflexivity. Qed.

Lemma yields_write_DDRB v : yields (write_DDRB v) tt [].
Proof. apply yields_silent. intros h. eexists. split; reflexivity. Qed.

Lemma yields_write_DDRD v : yields (write_DDRD v) tt [].
Proof. apply yields_silent. intros h. eexists. split; reflexivity. Qed.

Lemma yields_delay ms : yields (_delay_ms ms) tt [].
Proof. apply yields_ret. Qed.

(** A command byte (below 256) is latched once, with [rs] low. *)
Lemma lcd_cmd_run c h :
  lcd_cmd c h =
  Some (tt, mkHw (DDRB h) (DDRD h) (C.to_uint8 c) 0 (ADMUX h) (ADCSRA h)
                 (lcd h ++ [LcdCmd (C.to_uint8 c)])).
Proof.
  unfold lcd_cmd, bind, write_PORTB, write_PORTD, _delay_ms, ret, latched.
  cbn. rewrite andb_false_r, app_nil_r. reflexivity.
Qed.

(** A data byte is latched once, with [rs] high. *)
Lemma lcd_data_run d h :
  lcd_data d h =
  Some (tt, mkHw (DDRB h) (DDRD h) (C.to_uint8 d) 8 (ADMUX h) (ADCSRA h)
                 (lcd h ++ [LcdData (C.to_uint8 d)])).
Proof.
  unfold lcd_data, bind, write_PORTB, write_PORTD, _delay_ms, ret, latched.
  cbn. rewrite andb_false_r, app_nil_r. reflexivity.
Qed.

Lemma yields_lcd_cmd c :
  0 <= c < 256 -> yields (lcd_cmd c) tt [LcdCmd c].
Proof.
  intros Hc h. rewrite lcd_cmd_run. eexists. split; [reflexivity|].
  cbn. unfold C.to_uint8. now rewrite Z.mod_small.
Qed.

Lemma yields_lcd_data d :
  0 <= d < 256 -> yields (lcd_data d) tt [LcdData d].
Proof.
  intros Hd h. rewrite lcd_data_run. eexists. split; [reflexivity|].
  cbn. unfold C.to_uint8. now rewrite Z.mod_small.
Qed.

Lemma char_code_range c : 0 <= char_code c < 256.
Proof.
  unfold char_code. pose proof (N_ascii_bounded c) as H. lia.
Qed.

Lemma c_string_nul_free s : nul_free s = true -> c_string s = s.
Proof.
  unfold nul_free. induction s as [|c s IH]; [reflexivity|].
  cbn [list_ascii_of_string forallb c_string]. intros H.
  apply andb_true_iff in H. destruct H as [Hc Hs].
  destruct (char_code c =? 0); [discriminate Hc|]. now rewrite IH.
Qed.

(** [lcd_str] sends what comes before the terminator. *)
Lemma yields_lcd_c_string s : yields (lcd_str s) tt (lcd_text (c_string s)).
Proof.
  induction s as [|c s IH]; cbn [lcd_str c_string].
  - apply yields_ret.
  - destruct (char_code c =? 0); [apply yields_ret|].
    change (lcd_text (String c (c_string s)))
      with ([LcdData (char_code c)] ++ lcd_text (c_string s)).
    eapply yields_bind; [apply yields_lcd_data, char_code_range | exact IH].
Qed.

Lemma yields_lcd_str s :
  nul_free s = true -> yields (lcd_str s) tt (lcd_text s).
Proof.
  intros H. rewrite <- (c_string_nul_free s H) at 2.
  apply yields_lcd_c_string.
Qed.

Lemma yields_lcd_data_all rows :
  Forall (fun d => 0 <= d < 256) rows ->
  yields (lcd_data_all rows) tt (map LcdData rows).
Proof.
  induction 1 as [|d rows Hd _ IH]; cbn [lcd_data_all map].
  - apply yields_ret.
  - change (LcdData d :: map LcdData rows)
      with ([LcdData d] ++ map LcdData rows).
    eapply yields_bind; [now apply yields_lcd_data | exact IH].
Qed.


(** Chains of helper calls are run one call at a time. *)
Ltac yield_step :=
  lazymatch goal with
  | |- yields (ret _) _ _ => apply yields_ret
  | |- yields (lcd_str _) _ _ => apply yields_lcd_str; reflexivity
  | |- yields (lcd_cmd _) _ _ => apply yields_lcd_cmd; lia
  | |- yields (lcd_data _) _ _ => apply yields_lcd_data; lia
  | |- yields (write_ADMUX _) _ _ => apply yields_write_ADMUX
  | |- yields (write_ADCSRA _) _ _ => apply yields_write_ADCSRA
  | |- yields (write_DDRB _) _ _ => apply yields_write_DDRB
  | |- yields (write_DDRD _) _ _ => apply yields_write_DDRD
  | |- yields (_delay_ms _) _ _ => apply yields_delay
  end.

Ltac yield_chain :=
  repeat lazymatch goal with
         | |- yields (bind _ _) _ _ => eapply yields_bind; [yield_step|]
         | |- yields _ _ _ => yield_step
         end.

Lemma yields_lcd_init : yields lcd_init tt lcd_init_events.
Proof.
  unfold lcd_init. eapply yields_eq; [yield_chain | reflexivity].
Qed.

Lemma yields_print_APEL : yields print_APEL tt apel_events.
Proof.
  unfold print_APEL. eapply yields_eq; [yield_chain | reflexivity].
Qed.

Lemma yields_adc_init : yields adc_init tt [].
Proof.
  unfold adc_init. eapply yields_eq; [yield_chain | reflexivity].
Qed.

Lemma yields_adc_initBG : yields adc_initBG tt [].
Proof.
  unfold adc_initBG. eapply yields_eq; [yield_chain | reflexivity].
Qed.

Lemma yields_read_adc inp channel :
  yields (read_adc inp channel) (C.to_uint16 (ADC inp)) [].
Proof.
  apply yields_silent. intros h. eexists. split; reflexivity.
Qed.

(** The text of [print_volt] holds no terminator before its end. *)

Lemma nul_free_app a b : nul_free (a ++ b) = nul_free a && nul_free b.
Proof.
  unfold nul_free. induction a as [|c a IH]; [reflexivity|].
  cbn [append list_ascii_of_string forallb]. now rewrite IH, andb_assoc.
Qed.

Lemma digit_char_code d : 0 <= d < 10 -> char_code (digit_char d) = 48 + d.
Proof.
  intros H. unfold char_code, digit_char.
  rewrite N_ascii_embedding by lia. lia.
Qed.

Lemma utoa_aux_nul_free fuel :
  forall n acc,
    nul_free acc = true -> nul_free (utoa_aux fuel n acc) = true.
Proof.
  induction fuel as [|fuel IH]; intros n acc Ha; cbn [utoa_aux];
    [exact Ha|].
  assert (A : nul_free (String (digit_char (n mod 10)) acc) = true).
  { unfold nul_free in *. cbn [list_ascii_of_string forallb].
    rewrite Ha, digit_char_code by (apply Z.mod_pos_bound; lia).
    pose proof (Z.mod_pos_bound n 10 ltac:(lia)).
    destruct (Z.eqb_spec (48 + n mod 10) 0); [lia | reflexivity]. }
  destruct (n / 10 =? 0); [exact A | now apply IH].
Qed.

Lemma utoa_nul_free n : nul_free (utoa n) = true.
Proof. unfold utoa. now apply utoa_aux_nul_free. Qed.

Lemma number_text intV decV :
  (if decV <? 10 then sprintf "%u.00%u V" [intV; decV]
   else if decV <? 100 then sprintf "%u.0%u V" [intV; decV]
   else sprintf "%u.%u V" [intV; decV])
  = (utoa intV ++ fraction_text decV)%string.
Proof.
  unfold fraction_text.
  destruct (decV <? 10); [reflexivity|].
  destruct (decV <? 100); reflexivity.
Qed.

Lemma format_volt_nul_free v shown :
  format_volt v = Some shown -> nul_free shown = true.
Proof.
  unfold format_volt. destruct (to_int v) as [intV|]; [|discriminate].
  cbv zeta. destruct (to_int _) as [decV|]; [|discriminate].
  rewrite number_text. destruct (_ <? 16); [|discriminate].
  intros E. inversion E as [T]. clear E T.
  rewrite nul_free_app, utoa_nul_free. cbn [andb]. unfold fraction_text.
  destruct (decV <? 10); [|destruct (decV <? 100)];
    rewrite nul_free_app; cbn [andb nul_free list_ascii_of_string forallb];
    rewrite ?nul_free_app, utoa_nul_free; reflexivity.
Qed.

Lemma yields_print_volt v shown :
  format_volt v = Some shown -> yields (print_volt v) tt (lcd_text shown).
Proof.
  intros E. unfold print_volt. rewrite E. cbn [lift].
  change (lcd_text shown) with ([] ++ lcd_text shown).
  eapply yields_bind; [apply yields_ret|].
  apply yields_lcd_str. now apply (format_volt_nul_free v).
Qed.

Ltac yield_call :=
  lazymatch goal with
  | |- yields lcd_init _ _ => apply yields_lcd_init
  | |- yields print_APEL _ _ => apply yields_print_APEL
  | |- yields adc_init _ _ => apply yields_adc_init
  | |- yields adc_initBG _ _ => apply yields_adc_initBG
  | |- yields (read_adc _ _) _ _ => apply yields_read_adc
  | |- yields (print_volt _) _ _ => eapply yields_print_volt; eassumption
  | |- _ => yield_step
  end.

Ltac yield_run :=
  repeat (cbv beta zeta;
          lazymatch goal with
          | |- yields (bind _ _) _ _ => eapply yields_bind; [yield_call|]
          | |- yields _ _ _ => yield_call
          end).

(** ** The passes of the main loop, branch by branch *)

Lemma sample_of_ok inp : adc_ok inp = true -> sample_of inp = ADC inp.
Proof.
  unfold adc_ok, sample_of, C.uint16_to_int, C.to_uint16, C.INT_MAX.
  intros H. apply andb_true_iff in H. destruct H as [H1 H2].
  apply Z.leb_le in H1, H2.
  rewrite Z.mod_mod by lia. rewrite Z.mod_small by lia.
  destruct (Z.leb_spec (ADC inp) 32767); lia.
Qed.

Lemma yields_buttons_start inp l :
  start_active inp = true ->
  yields (buttons inp l) (set_peakVoltage 0 (set_state 1 l)) running_screen.
Proof.
  intros H. unfold buttons. unfold start_active in H. rewrite H.
  eapply yields_eq; [yield_run | now rewrite ?app_nil_r].
Qed.

Lemma yields_buttons_stop inp l shown :
  start_active inp = false -> stop_active inp = true ->
  format_volt (peak_volts (peakVoltage l)) = Some shown ->
  yields (buttons inp l)
         (set_peak (peak_volts (peakVoltage l)) (set_state 2 l))
         (peak_screen shown).
Proof.
  intros H1 H2 F. unfold buttons. unfold start_active in H1.
  unfold stop_active in H2. rewrite H1, H2.
  eapply yields_eq; [yield_run | now rewrite ?app_nil_r].
Qed.

Lemma yields_buttons_readBias inp l :
  start_active inp = false -> stop_active inp = false ->
  readBias_active inp = true ->
  yields (buttons inp l) (set_state 3 l) bias_screen.
Proof.
  intros H1 H2 H3. unfold buttons. unfold start_active in H1.
  unfold stop_active in H2. unfold readBias_active in H3.
  rewrite H1, H2, H3.
  eapply yields_eq; [yield_run | now rewrite ?app_nil_r].
Qed.

Lemma yields_buttons_none inp l :
  no_button inp = true -> yields (buttons inp l) l [].
Proof.
  unfold no_button. intros H.
  apply andb_true_iff in H. destruct H as [H H3].
  apply andb_true_iff in H. destruct H as [H1 H2].
  apply negb_true_iff in H1, H2, H3. unfold buttons.
  unfold start_active in H1. unfold stop_active in H2.
  unfold readBias_active in H3. rewrite H1, H2, H3. apply yields_ret.
Qed.

(** [case 1]: the sample replaces the accumulator when it is larger. *)
Lemma yields_mode_acquiring inp l :
  state l = 1 ->
  yields (mode_action inp l)
         (mkLocals (Z.max (peakVoltage l) (sample_of inp)) (sample_of inp)
                   (bias l) (peak l) 1) [].
Proof.
  intros S. unfold mode_action. rewrite S. cbn [Z.eqb Pos.eqb].
  change (@nil LcdEvent) with (@nil LcdEvent ++ []).
  eapply yields_bind; [apply yields_read_adc|]. cbv beta zeta.
  fold (sample_of inp).
  match goal with
  | |- yields (ret ?x) ?y _ => replace x with y; [apply yields_ret|]
  end.
  destruct l as [pv vr b p st]. cbn in S. subst st.
  unfold set_peakVoltage, set_Vread. cbn.
  destruct (Z.gtb_spec (sample_of inp) pv);
    [rewrite Z.max_r by lia | rewrite Z.max_l by lia]; reflexivity.
Qed.

(** [case 3]: the bias channel is sampled, converted and shown. *)
Lemma yields_mode_readingBias inp l shown :
  state l = 3 ->
  format_volt (bias_volts (sample_of inp)) = Some shown ->
  yields (mode_action inp l)
         (mkLocals (peakVoltage l) (sample_of inp)
                   (Some (bias_volts (sample_of inp))) (peak l) 3)
         (bias_refresh shown).
Proof.
  intros S F. unfold mode_action. rewrite S. cbn [Z.eqb Pos.eqb].
  change (bias_refresh shown) with ([] ++ [LcdCmd 0xC0] ++ lcd_text shown).
  eapply yields_bind; [apply yields_read_adc|]. cbv beta zeta.
  fold (sample_of inp).
  eapply yields_bind; [apply yields_lcd_cmd; lia|].
  cbn [bias set_bias Vread set_Vread].
  rewrite <- (app_nil_r (lcd_text shown)).
  eapply yields_bind; [now apply yields_print_volt|].
  match goal with
  | |- yields (ret ?x) ?y _ => replace x with y; [apply yields_ret|]
  end.
  destruct l as [pv vr b p st]. cbn in S. subst st. reflexivity.
Qed.

(** The other states do nothing. *)
Lemma yields_mode_other inp l :
  state l <> 1 -> state l <> 3 -> yields (mode_action inp l) l [].
Proof.
  intros S1 S3. unfold mode_action.
  destruct (Z.eqb_spec (state l) 1); [contradiction|].
  destruct (Z.eqb_spec (state l) 3); [contradiction|]. apply yields_ret.
Qed.

(** ** Whole passes *)

Lemma yields_loop_body inp l l1 l2 e1 e2 :
  yields (buttons inp l) l1 e1 -> yields (mode_action inp l1) l2 e2 ->
  yields (loop_body inp l) l2 (e1 ++ e2).
Proof. intros H1 H2. unfold loop_body. eapply yields_bind; eassumption. Qed.

Lemma no_button_false inp :
  no_button inp = true ->
  start_active inp = false /\ stop_active inp = false
  /\ readBias_active inp = false.
Proof.
  unfold no_button. intros H.
  apply andb_true_iff in H. destruct H as [H H3].
  apply andb_true_iff in H. destruct H as [H1 H2].
  now apply negb_true_iff in H1, H2, H3.
Qed.

Lemma no_button_true inp :
  start_active inp = false -> stop_active inp = false ->
  readBias_active inp = false -> no_button inp = true.
Proof. unfold no_button. now intros -> -> ->. Qed.

(** A pass with Start active, from any state. *)
Lemma pass_start inp l :
  start_active inp = true ->
  yields (loop_body inp l)
         (mkLocals (Z.max 0 (sample_of inp)) (sample_of inp)
                   (bias l) (peak l) 1)
         running_screen.
Proof.
  intros H. rewrite <- (app_nil_r running_screen).
  eapply yields_loop_body; [now apply yields_buttons_start|].
  exact (yields_mode_acquiring inp (set_peakVoltage 0 (set_state 1 l))
           eq_refl).
Qed.

(** A pass with Stop active and Start inactive, from any state. *)
Lemma pass_stop inp l shown :
  start_active inp = false -> stop_active inp = true ->
  format_volt (peak_volts (peakVoltage l)) = Some shown ->
  yields (loop_body inp l)
         (mkLocals (peakVoltage l) (Vread l) (bias l)
                   (peak_volts (peakVoltage l)) 2)
         (peak_screen shown).
Proof.
  intros H1 H2 F. rewrite <- (app_nil_r (peak_screen shown)).
  eapply yields_loop_body; [now apply yields_buttons_stop|].
  apply yields_mode_other; cbn; lia.
Qed.

(** A pass with only Read-Bias deciding, from any state. *)
Lemma pass_readBias inp l shown :
  start_active inp = false -> stop_active inp = false ->
  readBias_active inp = true ->
  format_volt (bias_volts (sample_of inp)) = Some shown ->
  yields (loop_body inp l)
         (mkLocals (peakVoltage l) (sample_of inp)
                   (Some (bias_volts (sample_of inp))) (peak l) 3)
         (bias_screen ++ bias_refresh shown).
Proof.
  intros H1 H2 H3 F.
  eapply yields_loop_body; [now apply yields_buttons_readBias|].
  exact (yields_mode_readingBias inp (set_state 3 l) shown eq_refl F).
Qed.

(** A pass with no button active leaves the work to the [switch]. *)
Lemma pass_none inp l l' evs :
  no_button inp = true ->
  yields (mode_action inp l) l' evs -> yields (loop_body inp l) l' evs.
Proof.
  intros H M. change evs with ([] ++ evs).
  eapply yields_loop_body; [now apply yields_buttons_none | exact M].
Qed.

(** ** Every 10-bit code can be shown *)

Lemma all_from_spec f count :
  forall start,
    all_from start count f = true ->
    forall k, start <= k < start + Z.of_nat count -> f k = true.
Proof.
  induction count as [|count IH]; intros start H k Hk; [lia|].
  cbn [all_from] in H. apply andb_true_iff in H. destruct H as [H0 H].
  destruct (Z.eq_dec k start) as [->|N]; [exact H0|].
  apply (IH (start + 1) H). lia.
Qed.

Lemma all_below_spec n f :
  all_below n f = true -> forall k, 0 <= k < n -> f k = true.
Proof.
  unfold all_below. intros H k Hk. apply (all_from_spec f _ 0 H).
  rewrite Z2Nat.id by lia. lia.
Qed.

Lemma shown_on_codes_spec conv :
  shown_on_codes conv = true ->
  forall s, 0 <= s <= 1023 -> exists shown, format_volt (conv s) = Some shown.
Proof.
  unfold shown_on_codes. intros H s Hs.
  pose proof (all_below_spec _ _ H s ltac:(lia)) as K. cbv beta in K.
  destruct (format_volt (conv s)) as [shown|];
    [now exists shown | discriminate K].
Qed.

Lemma peak_volts_shown s :
  0 <= s <= 1023 -> exists shown, format_volt (peak_volts s) = Some shown.
Proof. apply shown_on_codes_spec. vm_compute. reflexivity. Qed.

Lemma bias_volts_shown s :
  0 <= s <= 1023 -> exists shown, format_volt (bias_volts s) = Some shown.
Proof. apply shown_on_codes_spec. vm_compute. reflexivity. Qed.

(** The source expressions are the reconstruction formula at the two
    profiles. *)
Lemma peak_volts_reconstruct s : peak_volts s = reconstruct s peakProfile.
Proof. reflexivity. Qed.

Lemma bias_volts_reconstruct s : bias_volts s = reconstruct s biasProfile.
Proof. reflexivity. Qed.

(** ** Passes are defined on 10-bit samples *)

Lemma adc_ok_range inp : adc_ok inp = true -> 0 <= ADC inp <= 1023.
Proof.
  unfold adc_ok. intros H. apply andb_true_iff in H.
  destruct H as [H1 H2]. apply Z.leb_le in H1, H2. lia.
Qed.

Lemma pass_total inp l :
  acc_ok l -> adc_ok inp = true ->
  exists l' evs,
    yields (loop_body inp l) l' evs /\ acc_ok l'
    /\ state l' = next_state inp (state l).
Proof.
  intros A Hadc. pose proof (adc_ok_range inp Hadc) as R.
  pose proof (sample_of_ok inp Hadc) as Es. unfold acc_ok in A.
  unfold next_state.
  destruct (start_active inp) eqn:B1.
  { eexists. eexists. split; [now apply pass_start|].
    unfold acc_ok. cbn. rewrite Es. split; [lia | reflexivity]. }
  destruct (stop_active inp) eqn:B2.
  { destruct (peak_volts_shown (peakVoltage l) A) as [shown F].
    eexists. eexists. split; [now apply (pass_stop inp l shown)|].
    unfold acc_ok. cbn. split; [lia | reflexivity]. }
  destruct (readBias_active inp) eqn:B3.
  { destruct (bias_volts_shown (sample_of inp)) as [shown F];
      [rewrite Es; lia|].
    eexists. eexists. split; [now apply (pass_readBias inp l shown)|].
    unfold acc_ok. cbn. split; [lia | reflexivity]. }
  pose proof (no_button_true inp B1 B2 B3) as N.
  destruct (Z.eq_dec (state l) 1) as [S1|S1].
  { eexists. eexists.
    split; [apply pass_none; [exact N | now apply yields_mode_acquiring]|].
    unfold acc_ok. cbn. rewrite Es. split; [lia | now rewrite S1]. }
  destruct (Z.eq_dec (state l) 3) as [S3|S3].
  { destruct (bias_volts_shown (sample_of inp)) as [shown F];
      [rewrite Es; lia|].
    eexists. eexists.
    split; [apply pass_none;
            [exact N | now apply (yields_mode_readingBias inp l shown)]|].
    unfold acc_ok. cbn. split; [lia | now rewrite S3]. }
  exists l. eexists.
  split; [apply pass_none; [exact N | now apply yields_mode_other]|].
  split; [exact A | reflexivity].
Qed.

Lemma yields_passes_cons inp inps l l1 l2 e1 e2 :
  yields (loop_body inp l) l1 e1 -> yields (passes inps l1) l2 e2 ->
  yields (passes (inp :: inps) l) l2 (e1 ++ e2).
Proof. intros H1 H2. cbn [passes]. eapply yields_bind; eassumption. Qed.

Lemma yields_passes_app a b l l1 l2 e1 e2 :
  yields (passes a l) l1 e1 -> yields (passes b l1) l2 e2 ->
  yields (passes (a ++ b) l) l2 (e1 ++ e2).
Proof.
  intros Ha Hb h. destruct (Ha h) as (h1 & E1 & L1).
  destruct (Hb h1) as (h2 & E2 & L2). exists h2.
  split; [| now rewrite L2, L1, app_assoc].
  clear L1 L2 Ha Hb. revert l h E1.
  induction a as [|inp a IH]; intros l h E1; cbn [app passes] in *.
  - unfold ret in E1. now inversion E1; subst.
  - unfold bind in *. destruct (loop_body inp l h) as [[l0 h0]|];
      [now apply IH | discriminate].
Qed.

Lemma passes_total inps l :
  acc_ok l -> forallb adc_ok inps = true ->
  exists l' evs,
    yields (passes inps l) l' evs /\ acc_ok l'
    /\ state l' = fold_left (fun st inp => next_state inp st) inps (state l).
Proof.
  revert l. induction inps as [|inp inps IH]; intros l A H.
  - exists l, []. split; [apply yields_ret | now split].
  - cbn [forallb] in H. apply andb_true_iff in H. destruct H as [H1 H2].
    destruct (pass_total inp l A H1) as (l1 & e1 & Y1 & A1 & S1).
    destruct (IH l1 A1 H2) as (l2 & e2 & Y2 & A2 & S2).
    exists l2, (e1 ++ e2).
    split; [now apply (yields_passes_cons inp inps l l1)|].
    split; [exact A2|]. cbn [fold_left]. now rewrite <- S1.
Qed.

(** The program enters the loop with the declared locals. *)
Lemma main_setup_run : main_setup reset_hw = Some (declared_locals, power_up_hw).
Proof. vm_compute. reflexivity. Qed.

Lemma main_of_passes inps l evs :
  yields (passes inps declared_locals) l evs ->
  exists h, main inps = Some (l, h) /\ lcd h = lcd power_up_hw ++ evs.
Proof.
  intros Y. destruct (Y power_up_hw) as (h & E & L). exists h.
  split; [| exact L]. unfold main, bind. now rewrite main_setup_run.
Qed.

(** Passes in state 1 with no button active accumulate the maximum. *)
Lemma acquire_passes inps :
  forall l,
    state l = 1 -> forallb no_button inps = true ->
    yields (passes inps l)
           (match inps with
            | [] => l
            | _ => mkLocals (fold_left Z.max (map sample_of inps) (peakVoltage l))
                            (last (map sample_of inps) 0) (bias l) (peak l) 1
            end) [].
Proof.
  induction inps as [|inp inps IH]; intros l S H.
  - apply yields_ret.
  - cbn [forallb] in H. apply andb_true_iff in H. destruct H as [H1 H2].
    change (@nil LcdEvent) with (@nil LcdEvent ++ []).
    eapply yields_passes_cons.
    + apply pass_none; [exact H1 | now apply yields_mode_acquiring].
    + match goal with
      | |- yields (passes inps ?l1) _ _ =>
          specialize (IH l1 eq_refl H2)
      end.
      destruct inps as [|inp' inps']; [exact IH|]. exact IH.
Qed.

(** * The mode machine *)

(** C3, as amended.  From power-up: a pass with Start active whose own
    sample is at most 450, then five passes with no button active whose
    samples are 100, 300, 200, 450, 450, then a pass with Stop active (and
    Start inactive).  The accumulator ends at 450, the machine is Stopped,
    and the voltage shown is the reconstruction of 450 with the
    peak-signal profile, "2.841 V". *)
Theorem acquisition_scenario inp0 acq inpS :
  start_active inp0 = true -> 0 <= ADC inp0 <= 450 ->
  forallb no_button acq = true ->
  map ADC acq = [100; 300; 200; 450; 450] ->
  start_active inpS = false -> stop_active inpS = true ->
  exists l h,
    main (inp0 :: acq ++ [inpS]) = Some (l, h)
    /\ peakVoltage l = 450
    /\ mode_of (state l) = Some Stopped
    /\ peak l = reconstruct 450 peakProfile
    /\ format_volt (reconstruct 450 peakProfile) = Some "2.841 V"%string
    /\ lcd h = lcd power_up_hw ++ running_screen ++ peak_screen "2.841 V".
Proof.
  intros B0 R0 NB Hadc BS1 BS2.
  assert (S0 : sample_of inp0 = ADC inp0).
  { apply sample_of_ok. unfold adc_ok.
    apply andb_true_iff. split; apply Z.leb_le; lia. }
  assert (Sacq : map sample_of acq = [100; 300; 200; 450; 450]).
  { rewrite <- Hadc. apply map_ext_in. intros i Hi. apply sample_of_ok.
    assert (In (ADC i) [100; 300; 200; 450; 450])
      by (rewrite <- Hadc; now apply in_map).
    unfold adc_ok. apply andb_true_iff.
    split; apply Z.leb_le; cbn in H; lia. }
  assert (F : format_volt (peak_volts 450) = Some "2.841 V"%string)
    by (vm_compute; reflexivity).
  pose proof (pass_start inp0 declared_locals B0) as Y0.
  rewrite S0 in Y0.
  match type of Y0 with yields _ ?l1 _ =>
    pose proof (acquire_passes acq l1 eq_refl NB) as Y1
  end.
  destruct acq as [|i1 acq']; [discriminate Hadc|].
  cbn [peakVoltage bias peak] in Y1. rewrite Sacq in Y1.
  cbn [fold_left last] in Y1.
  replace (Z.max (Z.max (Z.max (Z.max (Z.max (Z.max 0 (ADC inp0)) 100) 300)
                               200) 450) 450) with 450 in Y1 by lia.
  match type of Y1 with yields _ ?l2 _ =>
    pose proof (pass_stop inpS l2 _ BS1 BS2 F) as Y2
  end.
  cbn [peakVoltage Vread bias] in Y2.
  assert (Y : yields (passes (inp0 :: (i1 :: acq') ++ [inpS]) declared_locals)
                     (mkLocals 450 450 None (peak_volts 450) 2)
                     (running_screen ++ [] ++ peak_screen "2.841 V" ++ [])).
  { eapply yields_passes_cons; [exact Y0|].
    eapply yields_passes_app; [exact Y1|].
    eapply yields_passes_cons; [exact Y2 | apply yields_ret]. }
  destruct (main_of_passes _ _ _ Y) as (h & E & L).
  eexists. exists h. split; [exact E|]. cbn [peakVoltage state peak].
  repeat split; try reflexivity; try exact F.
  rewrite L. now rewrite app_nil_r.
Qed.

Lemma acquisition_scenario_witness :
  exists l h,
    main (mkInputs 1 450 :: map idle_inp [100; 300; 200; 450; 450]
          ++ [mkInputs 2 0]) = Some (l, h)
    /\ peakVoltage l = 450
    /\ mode_of (state l) = Some Stopped
    /\ peak l = reconstruct 450 peakProfile
    /\ format_volt (reconstruct 450 peakProfile) = Some "2.841 V"%string
    /\ lcd h = lcd power_up_hw ++ running_screen ++ peak_screen "2.841 V".
Proof.
  apply (acquisition_scenario (mkInputs 1 450)
           (map idle_inp [100; 300; 200; 450; 450]) (mkInputs 2 0));
    first [reflexivity | cbn; lia].
Defined.

(** C3 as stated fails: the pass with Start active already samples the
    peak channel, so a sample of 1000 in that pass is what the machine
    keeps and shows, while the five later samples never exceed 450. *)
Lemma acquisition_scenario_counterexample :
  exists l h,
    main (mkInputs 1 1000 :: map idle_inp [100; 300; 200; 450; 450]
          ++ [mkInputs 2 0]) = Some (l, h)
    /\ peakVoltage l = 1000
    /\ peakVoltage l <> 450
    /\ peak l <> reconstruct 450 peakProfile.
Proof.
  eexists. eexists. split; [vm_compute; reflexivity|].
  cbn [peakVoltage peak]. repeat split; [lia | vm_compute; discriminate].
Qed.

(** The [if] chain looks at the three button tests only, the [switch] at
    the converter only. *)
Lemma buttons_ext inp inp' l h :
  start_active inp = start_active inp' ->
  (start_active inp = false -> stop_active inp = stop_active inp') ->
  (start_active inp = false -> stop_active inp = false ->
   readBias_active inp = readBias_active inp') ->
  buttons inp l h = buttons inp' l h.
Proof.
  unfold buttons.
  change (Z.land (PIND inp) 1 =? 1) with (start_active inp).
  change (Z.land (PIND inp) 2 =? 2) with (stop_active inp).
  change (Z.land (PIND inp) 4 =? 4) with (readBias_active inp).
  change (Z.land (PIND inp') 1 =? 1) with (start_active inp').
  change (Z.land (PIND inp') 2 =? 2) with (stop_active inp').
  change (Z.land (PIND inp') 4 =? 4) with (readBias_active inp').
  intros <- H2 H3. destruct (start_active inp); [reflexivity|].
  rewrite <- (H2 eq_refl). destruct (stop_active inp); [reflexivity|].
  rewrite <- (H3 eq_refl eq_refl). reflexivity.
Qed.

Lemma mode_action_ext inp inp' l h :
  ADC inp = ADC inp' -> mode_action inp l h = mode_action inp' l h.
Proof.
  intros E. unfold mode_action, read_adc. rewrite E. reflexivity.
Qed.

Lemma loop_body_ext inp inp' l h :
  start_active inp = start_active inp' ->
  (start_active inp = false -> stop_active inp = stop_active inp') ->
  (start_active inp = false -> stop_active inp = false ->
   readBias_active inp = readBias_active inp') ->
  ADC inp = ADC inp' ->
  loop_body inp l h = loop_body inp' l h.
Proof.
  intros B1 B2 B3 E. unfold loop_body, bind.
  rewrite (buttons_ext inp inp' l h B1 B2 B3).
  destruct (buttons inp' l h) as [[l1 h1]|]; [|reflexivity].
  now apply mode_action_ext.
Qed.

(** C4.  The branch taken by a pass is decided by the first active button
    in the order Start, Stop, Read-Bias, whatever the other buttons and
    whatever the state.  With Start active the pass ends in state 1
    (Acquiring): the accumulator is reset and takes that pass's sample,
    and the Running screen is written.  With Start inactive and Stop
    active it ends in state 2 (Stopped): the reconstruction of the
    accumulator is stored and shown on the peak screen, and the
    accumulator is kept.  With only Read-Bias left active it ends in
    state 3 (ReadingBias): the bias screen is written with the
    reconstruction of that pass's sample.  Each time the pass runs
    exactly as with that button alone; in particular, with Start and Stop
    both active it runs exactly as with Start alone. *)
Theorem button_priority inp l h :
  loop_body inp l h =
  loop_body (mkInputs (if start_active inp then 0x01
                       else if stop_active inp then 0x02
                       else if readBias_active inp then 0x04
                       else 0x00) (ADC inp)) l h
  /\ (start_active inp = true -> stop_active inp = true ->
      loop_body inp l h = loop_body (mkInputs 0x01 (ADC inp)) l h)
  /\ (start_active inp = true ->
      exists l',
        yields (loop_body inp l) l' running_screen
        /\ state l' = 1 /\ mode_of (state l') = Some Acquiring
        /\ peakVoltage l' = Z.max 0 (sample_of inp)
        /\ Vread l' = sample_of inp
        /\ peak l' = peak l /\ bias l' = bias l)
  /\ (start_active inp = false -> stop_active inp = true -> acc_ok l ->
      exists l' shown,
        yields (loop_body inp l) l' (peak_screen shown)
        /\ state l' = 2 /\ mode_of (state l') = Some Stopped
        /\ format_volt (reconstruct (peakVoltage l) peakProfile) = Some shown
        /\ peak l' = reconstruct (peakVoltage l) peakProfile
        /\ peakVoltage l' = peakVoltage l
        /\ Vread l' = Vread l /\ bias l' = bias l)
  /\ (start_active inp = false -> stop_active inp = false ->
      readBias_active inp = true -> adc_ok inp = true ->
      exists l' shown,
        yields (loop_body inp l) l' (bias_screen ++ bias_refresh shown)
        /\ state l' = 3 /\ mode_of (state l') = Some ReadingBias
        /\ format_volt (reconstruct (sample_of inp) biasProfile) = Some shown
        /\ bias l' = Some (reconstruct (sample_of inp) biasProfile)
        /\ peakVoltage l' = peakVoltage l
        /\ Vread l' = sample_of inp /\ peak l' = peak l).
Proof.
  split; [|split; [|split; [|split]]].
  - apply loop_body_ext; [| | | reflexivity].
    + destruct (start_active inp); [reflexivity|].
      destruct (stop_active inp); [reflexivity|].
      destruct (readBias_active inp); reflexivity.
    + intros ->. destruct (stop_active inp); [reflexivity|].
      destruct (readBias_active inp); reflexivity.
    + intros -> ->. destruct (readBias_active inp); reflexivity.
  - intros B1 _. apply loop_body_ext; [| | | reflexivity].
    + now rewrite B1.
    + rewrite B1. discriminate.
    + rewrite B1. discriminate.
  - intros B1. eexists. split; [now apply pass_start|].
    now repeat split.
  - intros B1 B2 A.
    destruct (peak_volts_shown (peakVoltage l) A) as [shown F].
    eexists. exists shown. split; [now apply pass_stop|].
    split; [reflexivity|]. split; [reflexivity|]. split; [exact F|].
    now repeat split.
  - intros B1 B2 B3 Hadc.
    pose proof (adc_ok_range inp Hadc) as R.
    pose proof (sample_of_ok inp Hadc) as Es.
    destruct (bias_volts_shown (sample_of inp)) as [shown F];
      [rewrite Es; lia|].
    eexists. exists shown. split; [now apply pass_readBias|].
    split; [reflexivity|]. split; [reflexivity|]. split; [exact F|].
    now repeat split.
Qed.

Lemma button_priority_witness :
  (exists l',
     yields (loop_body (mkInputs 0x03 700) (mkLocals 450 450 None (peak_volts 450) 2))
            l' running_screen
     /\ state l' = 1 /\ mode_of (state l') = Some Acquiring
     /\ peakVoltage l' = Z.max 0 (sample_of (mkInputs 0x03 700))
     /\ Vread l' = sample_of (mkInputs 0x03 700)
     /\ peak l' = peak (mkLocals 450 450 None (peak_volts 450) 2)
     /\ bias l' = bias (mkLocals 450 450 None (peak_volts 450) 2))
  /\ loop_body (mkInputs 0x03 700) (mkLocals 450 450 None (peak_volts 450) 2)
               power_up_hw
     = loop_body (mkInputs 0x01 700) (mkLocals 450 450 None (peak_volts 450) 2)
                 power_up_hw.
Proof.
  destruct (button_priority (mkInputs 0x03 700)
              (mkLocals 450 450 None (peak_volts 450) 2) power_up_hw)
    as (_ & P & S & _).
  split; [apply S | apply P]; reflexivity.
Defined.

(** C5, as amended.  Every pass with Start active runs the Start branch,
    whatever the state it starts in (state 1 included): the accumulator
    is reset to 0 and then takes that pass's sample, so it ends the pass
    at the maximum of 0 and the sample, whatever it held before.  A pass
    with Start inactive never resets it: in state 1 with no button active
    it ends at the maximum of the old value and the sample, and with Stop
    or Read-Bias deciding, or with no button active outside state 1, it
    is unchanged. *)
Theorem start_held_resets inp l :
  (start_active inp = true ->
   exists l',
     yields (loop_body inp l) l' running_screen
     /\ mode_of (state l') = Some Acquiring
     /\ peakVoltage l' = Z.max 0 (sample_of inp))
  /\ (no_button inp = true -> state l = 1 ->
      exists l',
        yields (loop_body inp l) l' []
        /\ mode_of (state l') = Some Acquiring
        /\ peakVoltage l' = Z.max (peakVoltage l) (sample_of inp))
  /\ (start_active inp = false -> acc_ok l -> adc_ok inp = true ->
      stop_active inp = true \/ readBias_active inp = true \/ state l <> 1 ->
      exists l' evs,
        yields (loop_body inp l) l' evs
        /\ peakVoltage l' = peakVoltage l).
Proof.
  split; [|split].
  - intros B. eexists. split; [now apply pass_start|]. now cbn.
  - intros N S. eexists.
    split; [apply pass_none; [exact N | now apply yields_mode_acquiring]|].
    now cbn.
  - intros B1 A Hadc K.
    pose proof (adc_ok_range inp Hadc) as R.
    pose proof (sample_of_ok inp Hadc) as Es.
    destruct (stop_active inp) eqn:B2.
    { destruct (peak_volts_shown (peakVoltage l) A) as [shown F].
      eexists. eexists. split; [now apply (pass_stop inp l shown)|].
      reflexivity. }
    destruct (bias_volts_shown (sample_of inp)) as [shown F];
      [rewrite Es; lia|].
    destruct (readBias_active inp) eqn:B3.
    { eexists. eexists. split; [now apply (pass_readBias inp l shown)|].
      reflexivity. }
    assert (S1 : state l <> 1)
      by (destruct K as [K|[K|K]]; [discriminate K | discriminate K | exact K]).
    pose proof (no_button_true inp B1 B2 B3) as N.
    destruct (Z.eq_dec (state l) 3) as [S3|S3].
    + eexists. eexists.
      split; [apply pass_none;
              [exact N | now apply (yields_mode_readingBias inp l shown)]|].
      reflexivity.
    + exists l, []. split; [|reflexivity].
      apply pass_none; [exact N | now apply yields_mode_other].
Qed.

Lemma start_held_resets_witness :
  (exists l',
     yields (loop_body (mkInputs 1 100) (mkLocals 450 450 None (S754_zero false) 1))
            l' running_screen
     /\ mode_of (state l') = Some Acquiring
     /\ peakVoltage l' = Z.max 0 (sample_of (mkInputs 1 100)))
  /\ (exists l' evs,
        yields (loop_body (mkInputs 2 100)
                          (mkLocals 450 450 None (S754_zero false) 1)) l' evs
        /\ peakVoltage l'
           = peakVoltage (mkLocals 450 450 None (S754_zero false) 1)).
Proof.
  destruct (start_held_resets (mkInputs 1 100)
              (mkLocals 450 450 None (S754_zero false) 1)) as (R & _ & _).
  destruct (start_held_resets (mkInputs 2 100)
              (mkLocals 450 450 None (S754_zero false) 1)) as (_ & _ & K).
  split; [apply R; reflexivity|].
  apply K; first [reflexivity | unfold acc_ok; cbn; lia | left; reflexivity].
Defined.

(** C5 as stated fails: with Start held for two passes the machine is in
    state 1 after both, yet the accumulator falls from 450 to 100. *)
Lemma start_held_counterexample :
  exists l1 h1 l2 h2,
    main [mkInputs 1 450] = Some (l1, h1)
    /\ main [mkInputs 1 450; mkInputs 1 100] = Some (l2, h2)
    /\ mode_of (state l1) = Some Acquiring
    /\ mode_of (state l2) = Some Acquiring
    /\ peakVoltage l1 = 450
    /\ peakVoltage l2 = 100.
Proof.
  do 4 eexists. split; [vm_compute; reflexivity|].
  split; [vm_compute; reflexivity|]. now cbn.
Qed.

(** C6.  From state 2 (Stopped), a pass with Start active first sets the
    accumulator to 0 (the [if] chain), and only then accumulates that
    pass's sample (the [switch]); with the passes that follow with no
    button active, the accumulator is the maximum of 0 and the samples of
    the new acquisition, whatever it held before. *)
Theorem restart_resets_peak inp acq l :
  state l = 2 -> start_active inp = true ->
  forallb no_button acq = true ->
  (exists l0,
     yields (buttons inp l) l0 running_screen
     /\ peakVoltage l0 = 0 /\ mode_of (state l0) = Some Acquiring)
  /\ (exists l',
        yields (passes (inp :: acq) l) l' running_screen
        /\ mode_of (state l') = Some Acquiring
        /\ peakVoltage l' = fold_left Z.max (map sample_of (inp :: acq)) 0).
Proof.
  intros _ B NB. split.
  - eexists. split; [now apply yields_buttons_start|]. now cbn.
  - pose proof (pass_start inp l B) as Y0.
    match type of Y0 with yields _ ?l1 _ =>
      pose proof (acquire_passes acq l1 eq_refl NB) as Y1
    end.
    eexists. split.
    + rewrite <- (app_nil_r running_screen).
      eapply yields_passes_cons; [exact Y0 | exact Y1].
    + destruct acq; now cbn.
Qed.

Lemma restart_resets_peak_witness :
  exists l',
    yields (passes (mkInputs 1 120 :: [idle_inp 80; idle_inp 300])
                   (mkLocals 1000 1000 None (peak_volts 1000) 2))
           l' running_screen
    /\ mode_of (state l') = Some Acquiring
    /\ peakVoltage l'
       = fold_left Z.max
           (map sample_of (mkInputs 1 120 :: [idle_inp 80; idle_inp 300])) 0.
Proof.
  apply (restart_resets_peak (mkInputs 1 120) [idle_inp 80; idle_inp 300]
           (mkLocals 1000 1000 None (peak_volts 1000) 2));
    reflexivity.
Defined.

(** C7.  A pass that runs [case 3] with Start and Stop inactive (the
    machine is already in state 3, or Read-Bias is active) samples the
    bias channel, converts the sample with the bias-signal profile, shows
    it, and leaves the accumulator as it was. *)
Theorem bias_pass_keeps_peak inp l :
  start_active inp = false -> stop_active inp = false ->
  state l = 3 \/ readBias_active inp = true ->
  adc_ok inp = true ->
  exists l' evs shown,
    yields (loop_body inp l) l' (evs ++ bias_refresh shown)
    /\ peakVoltage l' = peakVoltage l
    /\ mode_of (state l') = Some ReadingBias
    /\ bias l' = Some (reconstruct (ADC inp) biasProfile)
    /\ format_volt (reconstruct (ADC inp) biasProfile) = Some shown.
Proof.
  intros B1 B2 M Hadc. pose proof (adc_ok_range inp Hadc) as R.
  pose proof (sample_of_ok inp Hadc) as Es.
  destruct (bias_volts_shown (sample_of inp)) as [shown F]; [rewrite Es; lia|].
  destruct (readBias_active inp) eqn:B3.
  - eexists. exists bias_screen, shown.
    split; [now apply (pass_readBias inp l shown)|].
    cbn. rewrite <- Es. now repeat split.
  - destruct M as [S|]; [|discriminate].
    eexists. exists [], shown.
    split; [apply pass_none;
            [now apply no_button_true
            | now apply (yields_mode_readingBias inp l shown)]|].
    cbn. rewrite <- Es. now repeat split.
Qed.

Lemma bias_pass_keeps_peak_witness :
  exists l' evs shown,
    yields (loop_body (idle_inp 512) (mkLocals 450 450 None (peak_volts 450) 3))
           l' (evs ++ bias_refresh shown)
    /\ peakVoltage l' = peakVoltage (mkLocals 450 450 None (peak_volts 450) 3)
    /\ mode_of (state l') = Some ReadingBias
    /\ bias l' = Some (reconstruct (ADC (idle_inp 512)) biasProfile)
    /\ format_volt (reconstruct (ADC (idle_inp 512)) biasProfile) = Some shown.
Proof.
  apply (bias_pass_keeps_peak (idle_inp 512)
           (mkLocals 450 450 None (peak_volts 450) 3));
    first [reflexivity | left; reflexivity].
Defined.

(** C9.  No branch of the [if] chain looks at the state: from every state
    a pass with a button active ends in the state of the first active
    button.  From power-up, a pass with Stop active (Start inactive) ends
    in state 2 and shows the reconstruction of 0, "0.000 V"; from state 1,
    a pass with only Read-Bias deciding ends in state 3. *)
Theorem buttons_ignore_mode :
  (forall inp l,
     acc_ok l -> adc_ok inp = true -> no_button inp = false ->
     exists l' evs,
       yields (loop_body inp l) l' evs
       /\ mode_of (state l')
          = Some (if start_active inp then Acquiring
                  else if stop_active inp then Stopped
                  else ReadingBias))
  /\ (forall inp,
        start_active inp = false -> stop_active inp = true ->
        exists l h,
          main [inp] = Some (l, h)
          /\ mode_of (state l) = Some Stopped
          /\ peak l = reconstruct 0 peakProfile
          /\ format_volt (reconstruct 0 peakProfile) = Some "0.000 V"%string
          /\ lcd h = lcd power_up_hw ++ peak_screen "0.000 V")
  /\ (forall inp l,
        state l = 1 -> adc_ok inp = true ->
        start_active inp = false -> stop_active inp = false ->
        readBias_active inp = true ->
        exists l' evs,
          yields (loop_body inp l) l' evs
          /\ mode_of (state l') = Some ReadingBias).
Proof.
  split; [|split].
  - intros inp l A Hadc NB.
    destruct (pass_total inp l A Hadc) as (l' & evs & Y & _ & S).
    exists l', evs. split; [exact Y|]. rewrite S. unfold next_state.
    unfold no_button in NB.
    destruct (start_active inp); [reflexivity|].
    destruct (stop_active inp); [reflexivity|].
    destruct (readBias_active inp); [reflexivity | discriminate].
  - intros inp B1 B2.
    assert (F : format_volt (peak_volts (peakVoltage declared_locals))
                = Some "0.000 V"%string) by (vm_compute; reflexivity).
    pose proof (pass_stop inp declared_locals _ B1 B2 F) as Y.
    assert (Y' : yields (passes [inp] declared_locals)
                   (mkLocals 0 0 None (peak_volts 0) 2)
                   (peak_screen "0.000 V" ++ []))
      by (eapply yields_passes_cons; [exact Y | apply yields_ret]).
    destruct (main_of_passes _ _ _ Y') as (h & E & L).
    eexists. exists h. split; [exact E|]. rewrite app_nil_r in L.
    cbn [state peak]. repeat split; try reflexivity; try exact L.
  - intros inp l S Hadc B1 B2 B3.
    pose proof (adc_ok_range inp Hadc) as R.
    pose proof (sample_of_ok inp Hadc) as Es.
    destruct (bias_volts_shown (sample_of inp)) as [shown F];
      [rewrite Es; lia|].
    eexists. eexists.
    split; [now apply (pass_readBias inp l shown)|]. reflexivity.
Qed.

Lemma buttons_ignore_mode_witness :
  (exists l' evs,
     yields (loop_body (mkInputs 2 0) declared_locals) l' evs
     /\ mode_of (state l')
        = Some (if start_active (mkInputs 2 0) then Acquiring
                else if stop_active (mkInputs 2 0) then Stopped
                else ReadingBias))
  /\ (exists l h,
        main [mkInputs 2 0] = Some (l, h)
        /\ mode_of (state l) = Some Stopped
        /\ peak l = reconstruct 0 peakProfile
        /\ format_volt (reconstruct 0 peakProfile) = Some "0.000 V"%string
        /\ lcd h = lcd power_up_hw ++ peak_screen "0.000 V")
  /\ (exists l' evs,
        yields (loop_body (mkInputs 4 512) (mkLocals 300 300 None (S754_zero false) 1))
               l' evs
        /\ mode_of (state l') = Some ReadingBias).
Proof.
  destruct buttons_ignore_mode as (G & P1 & P2).
  split; [|split].
  - apply (G (mkInputs 2 0) declared_locals);
      first [reflexivity | unfold acc_ok; cbn; lia].
  - apply (P1 (mkInputs 2 0)); reflexivity.
  - apply (P2 (mkInputs 4 512) (mkLocals 300 300 None (S754_zero false) 1));
      reflexivity.
Defined.

(** C10.  Every branch of the [if] chain assigns state 1, 2 or 3 and no
    statement assigns state 0: once a pass has seen a button active, the
    machine is never in state 0 (Idle) again, however many passes
    follow. *)
Theorem idle_never_reentered before inp after :
  forallb adc_ok (before ++ inp :: after) = true ->
  no_button inp = false ->
  exists l h,
    main (before ++ inp :: after) = Some (l, h)
    /\ mode_of (state l) <> Some Idle
    /\ (mode_of (state l) = Some Acquiring
        \/ mode_of (state l) = Some Stopped
        \/ mode_of (state l) = Some ReadingBias).
Proof.
  intros Hadc NB.
  assert (A0 : acc_ok declared_locals) by (unfold acc_ok; cbn; lia).
  destruct (passes_total _ _ A0 Hadc) as (l & evs & Y & _ & S).
  destruct (main_of_passes _ _ _ Y) as (h & E & _).
  exists l, h. split; [exact E|].
  assert (K : forall inps st, (st = 1 \/ st = 2 \/ st = 3) ->
              let st' := fold_left (fun st i => next_state i st) inps st in
              st' = 1 \/ st' = 2 \/ st' = 3).
  { induction inps as [|i inps IH]; intros st Hst; [exact Hst|].
    cbn [fold_left]. apply IH. unfold next_state.
    destruct (start_active i); [left; reflexivity|].
    destruct (stop_active i); [right; left; reflexivity|].
    destruct (readBias_active i); [right; right; reflexivity | exact Hst]. }
  rewrite fold_left_app in S. cbn [fold_left] in S.
  assert (N : let st := next_state inp
                (fold_left (fun st i => next_state i st) before
                   (state declared_locals)) in
              st = 1 \/ st = 2 \/ st = 3).
  { clear E S Y. unfold next_state. unfold no_button in NB.
    destruct (start_active inp); [left; reflexivity|].
    destruct (stop_active inp); [right; left; reflexivity|].
    destruct (readBias_active inp);
      [right; right; reflexivity | discriminate NB]. }
  specialize (K after _ N). cbv zeta in K. rewrite <- S in K.
  destruct K as [K|[K|K]]; rewrite K; cbn;
    (split; [discriminate | tauto]).
Qed.

Lemma idle_never_reentered_witness :
  exists l h,
    main ([idle_inp 5] ++ mkInputs 4 512 :: [idle_inp 511; idle_inp 513])
    = Some (l, h)
    /\ mode_of (state l) <> Some Idle
    /\ (mode_of (state l) = Some Acquiring
        \/ mode_of (state l) = Some Stopped
        \/ mode_of (state l) = Some ReadingBias).
Proof.
  apply (idle_never_reentered [idle_inp 5] (mkInputs 4 512)
           [idle_inp 511; idle_inp 513]); reflexivity.
Defined.

(** * binary32 arithmetic *)

(** ** The size of a mantissa *)

Lemma digits_bounds m :
  2 ^ (Zpos (digits2_pos m) - 1) <= Zpos m < 2 ^ Zpos (digits2_pos m).
Proof.
  induction m as [m IH | m IH |]; cbn [digits2_pos].
  - rewrite Pos2Z.inj_succ, Pos2Z.inj_xI.
    replace (Z.succ (Zpos (digits2_pos m)) - 1)
      with (Z.succ (Zpos (digits2_pos m) - 1)) by lia.
    rewrite !Z.pow_succ_r by lia. lia.
  - rewrite Pos2Z.inj_succ. change (Zpos m~0) with (2 * Zpos m).
    replace (Z.succ (Zpos (digits2_pos m)) - 1)
      with (Z.succ (Zpos (digits2_pos m) - 1)) by lia.
    rewrite !Z.pow_succ_r by lia. lia.
  - change (1 <= 1 < 2). lia.
Qed.

Lemma digits_le m k :
  0 <= k -> Zpos m < 2 ^ k -> Zpos (digits2_pos m) <= k.
Proof.
  intros Hk Hm. destruct (Z.le_gt_cases (Zpos (digits2_pos m)) k) as [|G];
    [assumption|].
  pose proof (digits_bounds m) as [L _].
  assert (2 ^ k <= 2 ^ (Zpos (digits2_pos m) - 1))
    by (apply Z.pow_le_mono_r; lia).
  lia.
Qed.

Lemma digits_ge m k :
  0 <= k -> 2 ^ k <= Zpos m -> k + 1 <= Zpos (digits2_pos m).
Proof.
  intros Hk Hm.
  destruct (Z.le_gt_cases (k + 1) (Zpos (digits2_pos m))) as [|G];
    [assumption|].
  pose proof (digits_bounds m) as [_ U].
  assert (2 ^ Zpos (digits2_pos m) <= 2 ^ k)
    by (apply Z.pow_le_mono_r; lia).
  lia.
Qed.

Lemma iter_xO_pow i d : Zpos (Pos.iter xO i d) = Zpos i * 2 ^ Zpos d.
Proof.
  induction d as [|d IH] using Pos.peano_ind.
  - change (Zpos i~0 = Zpos i * 2). lia.
  - rewrite Pos.iter_succ.
    change (Zpos (Pos.iter xO i d)~0) with (2 * Zpos (Pos.iter xO i d)).
    rewrite IH, Pos2Z.inj_succ, Z.pow_succ_r by lia. lia.
Qed.

Lemma fexp32 e : fexp prec emax e = Z.max (e - 24) (-149).
Proof. reflexivity. Qed.

(** ** Rounding a number that needs no rounding *)

Lemma round_aux_canonical s m e :
  fexp prec emax (Zpos (digits2_pos m) + e) = e -> e <= 104 ->
  binary_round_aux prec emax s (Zpos m) e loc_Exact = S754_finite s m e.
Proof.
  intros C B. unfold binary_round_aux, shr_fexp.
  cbn [Zdigits2 shr_record_of_loc]. rewrite C, Z.sub_diag.
  cbn [shr shr_m loc_of_shr_record round_nearest_even Zdigits2].
  rewrite C, Z.sub_diag. cbn [shr shr_m].
  replace (e <=? emax - prec) with true; [reflexivity|].
  symmetry. apply Z.leb_le. unfold emax, prec. lia.
Qed.

(** A number [i * 2^e0] whose mantissa is short enough is represented
    exactly: the mantissa is only shifted left. *)
Lemma binary_round_exact s i e0 :
  fexp prec emax (Zpos (digits2_pos i) + e0) <= e0 ->
  fexp prec emax (Zpos (digits2_pos i) + e0) <= 104 ->
  exists M,
    binary_round prec emax s i e0
    = S754_finite s M (fexp prec emax (Zpos (digits2_pos i) + e0))
    /\ Zpos M = Zpos i * 2 ^ (e0 - fexp prec emax (Zpos (digits2_pos i) + e0))
    /\ Zpos (digits2_pos M)
       = Zpos (digits2_pos i)
         + (e0 - fexp prec emax (Zpos (digits2_pos i) + e0)).
Proof.
  set (fe := fexp prec emax (Zpos (digits2_pos i) + e0)).
  intros L B. unfold binary_round, shl_align. fold fe.
  destruct (fe - e0) as [|p|p] eqn:D; try lia.
  - assert (E : fe = e0) by lia.
    exists i. replace (e0 - fe) with 0 by lia.
    rewrite Z.pow_0_r, Z.mul_1_r, Z.add_0_r, E.
    split; [apply round_aux_canonical; [exact E | lia] | now split].
  - assert (Ep : e0 - fe = Zpos p) by lia.
    assert (Dg : Zpos (digits2_pos (Pos.iter xO i p))
                 = Zpos (digits2_pos i) + Zpos p).
    { pose proof (digits_bounds i) as [Lo Hi].
      pose proof (iter_xO_pow i p) as V.
      apply Z.le_antisymm.
      - apply digits_le; [lia|]. rewrite V, Z.pow_add_r by lia.
        apply Z.mul_lt_mono_pos_r; [apply Z.pow_pos_nonneg; lia | exact Hi].
      - replace (Zpos (digits2_pos i) + Zpos p)
          with ((Zpos (digits2_pos i) - 1 + Zpos p) + 1) by lia.
        apply digits_ge; [lia|]. rewrite V, Z.pow_add_r by lia.
        apply Z.mul_le_mono_nonneg_r; [apply Z.pow_nonneg; lia | exact Lo]. }
    exists (Pos.iter xO i p). rewrite Ep. split; [|split].
    + apply round_aux_canonical; [|exact B]. rewrite Dg.
      replace (Zpos (digits2_pos i) + Zpos p + fe)
        with (Zpos (digits2_pos i) + e0) by lia.
      reflexivity.
    + apply iter_xO_pow.
    + exact Dg.
Qed.

(** ** Shifting right and rounding to nearest *)

Lemma shifted_start N : 0 <= N -> shifted 0 N (Build_shr_record N false false).
Proof.
  intros H. split; [exact H|]. exists 0. cbn [shr_m shr_r shr_s].
  rewrite Z.pow_0_r. repeat split; try lia; try discriminate.
Qed.

Lemma shifted_step k N mrs :
  0 <= k -> shifted k N mrs -> shifted (k + 1) N (shr_1 mrs).
Proof.
  intros Hk (Hq & rem & EN & Hrem & Hr & Hs).
  assert (P : 0 < 2 ^ k) by (apply Z.pow_pos_nonneg; lia).
  assert (E2 : 2 ^ (k + 1) = 2 * 2 ^ k) by (rewrite Z.pow_add_r; lia).
  destruct mrs as [q r s]. cbn [shr_m shr_r shr_s] in *.
  assert (Hor : orb r s = true <-> rem <> 0).
  { destruct r, s; cbn; split; intros; try reflexivity; try lia;
      try discriminate. }
  assert (T : true = true <-> True) by (split; auto).
  assert (F : false = true <-> False) by (split; [discriminate | tauto]).
  destruct q as [|[p|p|]|p]; try lia;
    unfold shifted; cbn [shr_1 shr_m shr_r shr_s]; (split; [lia|]).
  - exists rem. rewrite E2, Hor, F. repeat split; try lia.
  - exists (2 ^ k + rem). rewrite E2, Hor, T. rewrite Pos2Z.inj_xI in EN.
    repeat split; try lia.
  - exists rem. rewrite E2, Hor, F. change (Zpos p~0) with (2 * Zpos p) in EN.
    repeat split; try lia.
  - exists (2 ^ k + rem). rewrite E2, Hor, T. repeat split; try lia.
Qed.

Lemma shifted_iter N p :
  forall k mrs,
    0 <= k -> shifted k N mrs -> shifted (k + Zpos p) N (iter_pos shr_1 p mrs).
Proof.
  induction p as [p IH | p IH |]; intros k mrs Hk H; cbn [iter_pos].
  - replace (k + Zpos p~1) with (k + 1 + Zpos p + Zpos p) by lia.
    apply IH; [lia|]. apply IH; [lia|]. now apply shifted_step.
  - replace (k + Zpos p~0) with (k + Zpos p + Zpos p) by lia.
    apply IH; [lia|]. now apply IH.
  - now apply shifted_step.
Qed.

(** [shr] from an exact location: the exponent grows by the number of
    bits shifted out. *)
Lemma shr_spec N e n :
  0 <= N ->
  exists mrs,
    shr (Build_shr_record N false false) e n = (mrs, e + Z.max 0 n)
    /\ shifted (Z.max 0 n) N mrs.
Proof.
  intros HN. destruct n as [|p|p]; cbn [shr].
  - eexists. rewrite Z.add_0_r. split; [reflexivity|].
    now apply shifted_start.
  - eexists. replace (Z.max 0 (Zpos p)) with (Zpos p) by lia.
    split; [reflexivity|].
    apply (shifted_iter N p 0); [lia | now apply shifted_start].
  - eexists. replace (Z.max 0 (Zneg p)) with 0 by lia. rewrite Z.add_0_r.
    split; [reflexivity|]. now apply shifted_start.
Qed.

(** Rounding to nearest adds at most half of the last place. *)
Lemma round_nearest_bound k N mrs :
  0 <= k -> shifted k N mrs ->
  let q := round_nearest_even (shr_m mrs) (loc_of_shr_record mrs) in
  shr_m mrs <= q <= shr_m mrs + 1 /\ 2 * (q * 2 ^ k) <= 2 * N + 2 ^ k.
Proof.
  intros Hk (Hq & rem & EN & Hrem & Hr & Hs).
  assert (P : 0 < 2 ^ k) by (apply Z.pow_pos_nonneg; lia).
  destruct mrs as [q r s]. cbn [shr_m shr_r shr_s] in *.
  destruct r, s; cbn [loc_of_shr_record round_nearest_even].
  - pose proof (proj1 Hr eq_refl). split; [lia | nia].
  - pose proof (proj1 Hr eq_refl).
    assert (2 * rem = 2 ^ k).
    { destruct (Z.eq_dec (2 * rem) (2 ^ k)) as [E|E]; [exact E|].
      assert (false = true) by (apply Hs; split; lia). discriminate. }
    destruct (Z.even q); split; try lia; nia.
  - split; [lia | nia].
  - split; [lia | nia].
Qed.

(** ** Rounding a product

    The rounding of [N * 2^e], for a product mantissa [N] of 24 to 48
    bits: the result is zero or a finite number [m * 2^e'] that exceeds
    [N * 2^e] by at most half of the last place, which is at most 2^23
    units of [2^e]. *)
Lemma round_aux_upper N e :
  24 <= Zpos (digits2_pos N) <= 48 -> -163 <= e <= -15 ->
  binary_round_aux prec emax false (Zpos N) e loc_Exact = S754_zero false
  \/ exists m e',
       binary_round_aux prec emax false (Zpos N) e loc_Exact
       = S754_finite false m e'
       /\ e <= e'
       /\ 2 * (Zpos m * 2 ^ (e' - e)) <= 2 * Zpos N + 2 ^ 24.
Proof.
  intros Hd He. pose proof (digits_bounds N) as [_ HN].
  assert (HN48 : Zpos N < 2 ^ 48).
  { eapply Z.lt_le_trans; [exact HN|]. apply Z.pow_le_mono_r; lia. }
  unfold binary_round_aux, shr_fexp. cbn [Zdigits2 shr_record_of_loc].
  rewrite fexp32.
  set (n := Z.max (Zpos (digits2_pos N) + e - 24) (-149) - e).
  assert (Hn : 0 <= n <= 24) by lia.
  destruct (shr_spec (Zpos N) e n) as (mrs & E1 & S1); [lia|]. rewrite E1.
  replace (Z.max 0 n) with n in * by lia.
  pose proof (round_nearest_bound n (Zpos N) mrs (proj1 Hn) S1) as [Q1 Q2].
  set (q := round_nearest_even (shr_m mrs) (loc_of_shr_record mrs)) in *.
  destruct S1 as (Hq0 & rem & EN & Hrem & _).
  assert (P : 0 < 2 ^ n) by (apply Z.pow_pos_nonneg; lia).
  assert (Pn : 2 ^ n <= 2 ^ 24) by (apply Z.pow_le_mono_r; lia).
  assert (Hq : 0 <= q <= 2 ^ 48) by nia.
  rewrite fexp32.
  set (n2 := Z.max (Zdigits2 q + (e + n) - 24) (-149) - (e + n)).
  assert (Hn2 : Z.max 0 n2 <= 25).
  { destruct q as [|qp|qp]; [cbn [Zdigits2] in n2; lia | | lia].
    assert (Zpos (digits2_pos qp) <= 49).
    { apply digits_le; [lia|]. change (2 ^ 49) with (2 * 2 ^ 48). lia. }
    cbn [Zdigits2] in n2. lia. }
  destruct (shr_spec q (e + n) n2) as (mrs2 & E2 & S2); [lia|]. rewrite E2.
  destruct S2 as (Hm0 & rem2 & Eq & Hrem2 & _).
  set (b := Z.max 0 n2) in *.
  assert (Pb : 0 < 2 ^ b) by (apply Z.pow_pos_nonneg; lia).
  destruct (shr_m mrs2) as [|m|m]; [now left | | lia].
  right. exists m, (e + n + b).
  replace (e + n + b <=? emax - prec) with true
    by (symmetry; apply Z.leb_le; unfold emax, prec; lia).
  split; [reflexivity|]. split; [lia|].
  replace (e + n + b - e) with (b + n) by lia.
  rewrite Z.pow_add_r by lia. nia.
Qed.

(** ** A fraction times 1000

    For a binary32 number [mf * 2^ef] below 1, the product with 1000
    rounds to a number below 1000, so its integer part is one of
    0 .. 999 and the cast to [int] is defined. *)
Lemma times_1000 mf ef :
  Zpos mf < 2 ^ 24 -> -149 <= ef <= -1 -> Zpos mf < 2 ^ (- ef) ->
  exists d,
    to_int (fmul (S754_finite false mf ef) (of_Z 1000)) = Some d
    /\ 0 <= d <= 999.
Proof.
  intros Hm He Hv.
  change (of_Z 1000) with (S754_finite false 16384000 (-14)).
  unfold fmul, SFmul. cbn [xorb].
  set (N := (mf * 16384000)%positive).
  assert (EN : Zpos N = Zpos mf * 16384000) by reflexivity.
  assert (Hd : 24 <= Zpos (digits2_pos N) <= 48).
  { split.
    - apply (digits_ge N 23); [lia|]. change (2 ^ 23) with 8388608. lia.
    - apply digits_le; [lia|]. change (2 ^ 48) with (2 ^ 24 * 2 ^ 24).
      change (2 ^ 24) with 16777216 in *. nia. }
  set (e := ef + -14).
  assert (P : 0 < 2 ^ (- ef)) by (apply Z.pow_pos_nonneg; lia).
  assert (Pe : 2 ^ (- e) = 16384 * 2 ^ (- ef)).
  { replace (- e) with (14 + - ef) by lia. now rewrite Z.pow_add_r by lia. }
  destruct (round_aux_upper N e Hd) as [Z | (m & e' & E & Le & B)]; [lia | |].
  - rewrite Z. exists 0. split; [reflexivity | lia].
  - rewrite E. unfold to_int, trunc. cbn [cond_Zopp].
    change (2 ^ 24) with 16777216 in B.
    assert (K : Zpos m * 2 ^ (e' - e) < 1000 * 2 ^ (- e)) by nia.
    assert (Pe' : 0 < 2 ^ (- e)) by lia.
    assert (T : 0 <= (if 0 <=? e' then Zpos m * 2 ^ e'
                      else Zpos m / 2 ^ (- e')) <= 999).
    { destruct (Z.leb_spec 0 e') as [G|G].
      - assert (X : 2 ^ (e' - e) = 2 ^ e' * 2 ^ (- e))
          by (rewrite <- Z.pow_add_r by lia; f_equal; lia).
        assert (0 < 2 ^ e') by (apply Z.pow_pos_nonneg; lia).
        rewrite X in K. nia.
      - assert (D : 0 < 2 ^ (- e')) by (apply Z.pow_pos_nonneg; lia).
        assert (X : 2 ^ (- e) = 2 ^ (- e') * 2 ^ (e' - e))
          by (rewrite <- Z.pow_add_r by lia; f_equal; lia).
        assert (0 < 2 ^ (e' - e)) by (apply Z.pow_pos_nonneg; lia).
        pose proof (Z.mul_div_le (Zpos m) (2 ^ (- e')) D).
        assert (0 <= Zpos m / 2 ^ (- e')) by (apply Z.div_pos; lia).
        set (t := Zpos m / 2 ^ (- e')) in *. split; [lia|].
        assert (t * 2 ^ (- e) < 1000 * 2 ^ (- e)); [|nia].
        rewrite X at 1. nia. }
    set (t := if 0 <=? e' then Zpos m * 2 ^ e' else Zpos m / 2 ^ (- e')) in *.
    exists t. split; [|exact T].
    replace (C.in_int t) with true; [reflexivity|].
    symmetry. unfold C.in_int, C.INT_MIN, C.INT_MAX.
    apply andb_true_iff. split; apply Z.leb_le; lia.
Qed.

(** ** The integer part and the fraction *)

Lemma valid_finite s m e :
  valid (S754_finite s m e) = true ->
  Zpos m < 2 ^ 24 /\ -149 <= e <= 104
  /\ (Zpos (digits2_pos m) = 24 \/ e = -149).
Proof.
  unfold valid, valid_binary, bounded, canonical_mantissa. rewrite fexp32.
  intros H. apply andb_true_iff in H. destruct H as [H1 H2].
  apply Z.eqb_eq in H1. apply Z.leb_le in H2. unfold emax, prec in H2.
  pose proof (digits_bounds m) as [_ U].
  assert (Zpos (digits2_pos m) <= 24) by lia.
  assert (2 ^ Zpos (digits2_pos m) <= 2 ^ 24)
    by (apply Z.pow_le_mono_r; lia).
  lia.
Qed.

Lemma fsub_same_exponent m1 m2 e :
  fsub (S754_finite false m1 e) (S754_finite false m2 e)
  = binary_normalize prec emax (Zpos m1 - Zpos m2) e false.
Proof.
  unfold fsub, SFsub. rewrite Z.min_id. unfold shl_align.
  rewrite Z.sub_diag. reflexivity.
Qed.

(** For a non-negative binary32 number [m * 2^e] below 2^15 (so
    [e <= -9]): the integer part [i] fits [int]; converting it back and
    subtracting is exact, and leaves zero or a binary32 number below 1. *)
Lemma fraction_exact m e :
  valid (S754_finite false m e) = true -> e <= -9 ->
  let i := Zpos m / 2 ^ (- e) in
  0 <= i <= 32767
  /\ (fsub (S754_finite false m e) (of_Z i) = S754_zero false
      /\ Zpos m = i * 2 ^ (- e)
      \/ exists mf ef,
           fsub (S754_finite false m e) (of_Z i) = S754_finite false mf ef
           /\ Zpos mf < 2 ^ 24 /\ -149 <= ef <= -1
           /\ Zpos mf < 2 ^ (- ef)
           /\ Zpos mf * 2 ^ (ef + 149) = Zpos m * 2 ^ (e + 149) - i * 2 ^ 149).
Proof.
  intros V He i. destruct (valid_finite _ _ _ V) as (Hm & Hr & Hc).
  set (k := - e) in *.
  assert (Pk : 0 < 2 ^ k) by (apply Z.pow_pos_nonneg; lia).
  assert (P9 : 2 ^ 9 <= 2 ^ k) by (apply Z.pow_le_mono_r; lia).
  pose proof (Z.div_mod (Zpos m) (2 ^ k) ltac:(lia)) as DM.
  pose proof (Z.mod_pos_bound (Zpos m) (2 ^ k) Pk) as MB.
  fold i in DM.
  assert (Hi : 0 <= i <= 32767).
  { change (2 ^ 24) with (32768 * 2 ^ 9) in Hm.
    assert (0 <= i) by (apply Z.div_pos; lia). nia. }
  split; [exact Hi|].
  assert (E149 : 2 ^ 149 = 2 ^ k * 2 ^ (e + 149))
    by (rewrite <- Z.pow_add_r by lia; f_equal; lia).
  destruct (Z.eq_dec i 0) as [I0|I0].
  { (* the integer part is zero: nothing is subtracted *)
    right. exists m, e. rewrite I0 in *. split; [reflexivity|].
    fold k. repeat split; lia. }
  (* the integer part is positive: the number is normal *)
  destruct i as [|ip|ip] eqn:Ei; try lia.
  assert (Hk : k <= 23).
  { destruct (Z.le_gt_cases k 23) as [|G]; [assumption|].
    assert (2 ^ 24 <= 2 ^ k) by (apply Z.pow_le_mono_r; lia). nia. }
  assert (Hd : Zpos (digits2_pos m) = 24) by lia.
  pose proof (digits_bounds m) as [Lm _]. rewrite Hd in Lm.
  change (2 ^ (24 - 1)) with (2 ^ 23) in Lm.
  assert (E23 : 2 ^ 23 = 2 ^ (23 - k) * 2 ^ k)
    by (rewrite <- Z.pow_add_r by lia; f_equal; lia).
  assert (E24 : 2 ^ 24 = 2 ^ (24 - k) * 2 ^ k)
    by (rewrite <- Z.pow_add_r by lia; f_equal; lia).
  assert (P23 : 0 < 2 ^ (23 - k)) by (apply Z.pow_pos_nonneg; lia).
  assert (Dip : Zpos (digits2_pos ip) = 24 - k).
  { apply Z.le_antisymm.
    - apply digits_le; [lia|]. nia.
    - replace (24 - k) with (23 - k + 1) by lia. apply digits_ge; [lia|]. nia. }
  destruct (binary_round_exact false ip 0) as (M & EM & VM & _);
    try (rewrite fexp32; lia).
  rewrite fexp32 in EM, VM.
  replace (Z.max (Zpos (digits2_pos ip) + 0 - 24) (-149)) with e in * by lia.
  replace (0 - e) with k in VM by lia.
  change (of_Z (Zpos ip)) with (binary_round prec emax false ip 0).
  rewrite EM, fsub_same_exponent.
  destruct (Zpos m - Zpos M) as [|r|r] eqn:ER; try lia.
  { left. split; [reflexivity | lia]. }
  right. cbn [binary_normalize].
  assert (Hr2 : Zpos r < 2 ^ k) by lia.
  assert (Dr : Zpos (digits2_pos r) <= k) by (apply digits_le; lia).
  destruct (binary_round_exact false r e) as (M' & EM' & VM' & DM');
    try (rewrite fexp32; lia).
  rewrite fexp32 in EM', VM', DM'.
  set (fe := Z.max (Zpos (digits2_pos r) + e - 24) (-149)) in *.
  assert (Hfe : -149 <= fe <= e /\ Zpos (digits2_pos r) + e - 24 <= fe)
    by (unfold fe; lia).
  clearbody fe. exists M', fe. split; [exact EM'|].
  assert (Pf : 0 < 2 ^ (e - fe)) by (apply Z.pow_pos_nonneg; lia).
  assert (Ef : 2 ^ (- fe) = 2 ^ k * 2 ^ (e - fe))
    by (rewrite <- Z.pow_add_r by lia; f_equal; lia).
  assert (Eu : 2 ^ (e + 149) = 2 ^ (e - fe) * 2 ^ (fe + 149))
    by (rewrite <- Z.pow_add_r by lia; f_equal; lia).
  pose proof (digits_bounds M') as [_ UM'].
  assert (U24 : 2 ^ Zpos (digits2_pos M') <= 2 ^ 24)
    by (apply Z.pow_le_mono_r; lia).
  split; [lia|]. split; [lia|]. split.
  - rewrite Ef, VM'. now apply Z.mul_lt_mono_pos_r.
  - rewrite VM', E149, Eu.
    replace (Zpos r) with (Zpos m - Zpos M) by exact ER. rewrite VM. ring.
Qed.

(** * Formatting a voltage *)

Lemma length_app (a b : string) :
  String.length (a ++ b) = (String.length a + String.length b)%nat.
Proof. induction a as [|c a IH]; cbn; [reflexivity | now rewrite IH]. Qed.

Lemma utoa_aux_length fuel :
  forall n acc,
    (String.length (utoa_aux fuel n acc) <= fuel + String.length acc)%nat.
Proof.
  induction fuel as [|fuel IH]; intros n acc; cbn [utoa_aux].
  - lia.
  - destruct (n / 10 =? 0).
    + cbn [String.length]. lia.
    + etransitivity; [apply IH|]. cbn [String.length]. lia.
Qed.

Lemma utoa_length n : (String.length (utoa n) <= 5)%nat.
Proof. unfold utoa. etransitivity; [apply utoa_aux_length|]. cbn. lia. Qed.

(** [%u] writes the decimal numeral of its argument. *)
Lemma utoa_decimal n : 0 <= n <= 65535 -> atou (utoa n) = n.
Proof.
  intros H. apply Z.eqb_eq.
  apply (all_below_spec 65536 (fun n => atou (utoa n) =? n));
    [vm_compute; reflexivity | lia].
Qed.

(** Whichever of the three formats is chosen, the fraction is written
    with three digits. *)
Lemma fraction_text_digits decV :
  0 <= decV <= 999 ->
  fraction_text decV = ("." ++ three_digits decV ++ " V")%string.
Proof.
  intros H. apply String.eqb_eq.
  apply (all_below_spec 1000
           (fun d => String.eqb (fraction_text d)
                                ("." ++ three_digits d ++ " V")));
    [vm_compute; reflexivity | lia].
Qed.

(** Once both casts are defined and the fraction is below 1000, the text
    fits the buffer and has the integer part, a point, three digits, a
    space and "V". *)
Lemma format_volt_text v intV decV :
  to_int v = Some intV ->
  to_int (fmul (fsub v (of_Z intV)) (of_Z 1000)) = Some decV ->
  0 <= decV <= 999 ->
  format_volt v = Some (utoa intV ++ "." ++ three_digits decV ++ " V")%string.
Proof.
  intros E1 E2 Hd. unfold format_volt. rewrite E1. cbv zeta. rewrite E2.
  rewrite number_text, fraction_text_digits by exact Hd.
  replace (Z.of_nat (String.length
             (utoa intV ++ "." ++ three_digits decV ++ " V")) <? 16)
    with true; [reflexivity|].
  symmetry. apply Z.ltb_lt. rewrite length_app.
  pose proof (utoa_length intV). cbn [String.length append three_digits]. lia.
Qed.

(** A valid number that is at least 0 and below 32768 is a zero or a
    positive number with exponent at most -9. *)
Lemma nonneg_below_32768 v :
  valid v = true -> fleb (S754_zero false) v = true ->
  fltb v (of_Z 32768) = true ->
  (exists s, v = S754_zero s)
  \/ (exists m e, v = S754_finite false m e /\ e <= -9).
Proof.
  intros V L U. change (of_Z 32768) with (S754_finite false 8388608 (-8)) in U.
  destruct v as [s|s| |s m e].
  - left. now exists s.
  - destruct s; discriminate.
  - discriminate.
  - right. destruct s; [discriminate|]. exists m, e. split; [reflexivity|].
    destruct (valid_finite _ _ _ V) as (Hm & Hr & Hc). clear V L.
    unfold fltb, SFltb, SFcompare in U.
    destruct (Z.compare_spec e (-8)) as [E|E|E]; [|lia|discriminate].
    exfalso. subst e.
    destruct (Pos.compare_cont Eq m 8388608) eqn:C; try discriminate.
    clear U. rewrite Pos.compare_cont_spec, Pos2Z.inj_compare in C.
    destruct (Z.compare_spec (Zpos m) 8388608) as [C'|C'|C'];
      try discriminate C.
    clear C.
    destruct Hc as [Hc|Hc]; [|lia].
    pose proof (digits_bounds m) as [Lo _]. rewrite Hc in Lo.
    change (2 ^ (24 - 1)) with 8388608 in Lo. lia.
Qed.

(** The integer part and the three digits of a positive number below
    32768. *)
Lemma format_volt_finite m e :
  valid (S754_finite false m e) = true -> e <= -9 ->
  exists intV decV,
    to_int (S754_finite false m e) = Some intV
    /\ 0 <= intV <= 32767
    /\ 0 <= units (S754_finite false m e) - intV * 2 ^ 149 < 2 ^ 149
    /\ units (fsub (S754_finite false m e) (of_Z intV))
       = units (S754_finite false m e) - intV * 2 ^ 149
    /\ to_int (fmul (fsub (S754_finite false m e) (of_Z intV)) (of_Z 1000))
       = Some decV
    /\ 0 <= decV <= 999.
Proof.
  intros V He.
  destruct (fraction_exact m e V He) as (Hi & F). cbv zeta in Hi, F.
  destruct (valid_finite _ _ _ V) as (Hm & Hr & _). clear V.
  set (i := Zpos m / 2 ^ (- e)) in *.
  assert (Ti : to_int (S754_finite false m e) = Some i).
  { unfold to_int, trunc. cbn [cond_Zopp].
    destruct (Z.leb_spec 0 e); [lia|]. fold i.
    replace (C.in_int i) with true; [reflexivity|].
    symmetry. unfold C.in_int, C.INT_MIN, C.INT_MAX.
    apply andb_true_iff. split; apply Z.leb_le; lia. }
  assert (P : 0 < 2 ^ (e + 149)) by (apply Z.pow_pos_nonneg; lia).
  assert (E149 : 2 ^ 149 = 2 ^ (- e) * 2 ^ (e + 149))
    by (rewrite <- Z.pow_add_r by lia; f_equal; lia).
  exists i. cbn [units cond_Zopp].
  destruct F as [(F0 & Em) | (mf & ef & F1 & Hmf & Hef & Hlt & Eu)].
  - exists 0. rewrite F0. split; [exact Ti|]. split; [exact Hi|].
    assert (D : Zpos m * 2 ^ (e + 149) - i * 2 ^ 149 = 0)
      by (rewrite Em, E149; ring).
    rewrite D. cbn [units].
    split; [split; [lia | apply Z.pow_pos_nonneg; lia]|].
    split; [reflexivity|]. split; [reflexivity | lia].
  - destruct (times_1000 mf ef Hmf Hef Hlt) as (d & Td & Hd).
    exists d. rewrite F1. cbn [units cond_Zopp]. rewrite <- Eu.
    split; [exact Ti|]. split; [exact Hi|].
    assert (Pf : 0 < 2 ^ (ef + 149)) by (apply Z.pow_pos_nonneg; lia).
    assert (Ef : 2 ^ 149 = 2 ^ (- ef) * 2 ^ (ef + 149))
      by (rewrite <- Z.pow_add_r by lia; f_equal; lia).
    split; [split; [lia | rewrite Ef; now apply Z.mul_lt_mono_pos_r]|].
    split; [reflexivity|]. split; [exact Td | exact Hd].
Qed.

(** C2, as amended.  For every binary32 voltage [v] with
    [0 <= v < 32768], the two casts of [print_volt] are defined, the
    integer part [intV] is the floor of [v], the fraction
    [v - (float) intV] is computed exactly, [decV] is the integer part of
    the binary32 product of the fraction and 1000 and lies in 0 .. 999,
    and the text is the decimal numeral of [intV], a point, the three
    decimal digits of [decV], a space and "V".  In particular 1.0, 0.09,
    12.5 and 0.0009 are shown as "1.000 V", "0.090 V", "12.500 V" and
    "0.000 V". *)
Theorem format_three_digits :
  (forall v,
     valid v = true -> fleb (S754_zero false) v = true ->
     fltb v (of_Z 32768) = true ->
     exists intV decV,
       to_int v = Some intV
       /\ 0 <= intV <= 32767
       /\ atou (utoa intV) = intV
       /\ 0 <= units v - intV * 2 ^ 149 < 2 ^ 149
       /\ units (fsub v (of_Z intV)) = units v - intV * 2 ^ 149
       /\ to_int (fmul (fsub v (of_Z intV)) (of_Z 1000)) = Some decV
       /\ 0 <= decV <= 999
       /\ format_volt v
          = Some (utoa intV ++ "." ++ three_digits decV ++ " V")%string)
  /\ format_volt (dec_lit 10 10) = Some "1.000 V"%string
  /\ format_volt (dec_lit 9 100) = Some "0.090 V"%string
  /\ format_volt (dec_lit 125 10) = Some "12.500 V"%string
  /\ format_volt (dec_lit 9 10000) = Some "0.000 V"%string.
Proof.
  split; [|repeat split; vm_compute; reflexivity].
  intros v V L U.
  destruct (nonneg_below_32768 v V L U) as [[s ->] | (m & e & -> & He)].
  - exists 0, 0.
    assert (P : 0 < 2 ^ 149) by (apply Z.pow_pos_nonneg; lia).
    split; [reflexivity|]. split; [lia|]. split; [reflexivity|].
    split; [cbn [units]; lia|].
    split; [destruct s; reflexivity|].
    assert (T : to_int (fmul (fsub (S754_zero s) (of_Z 0)) (of_Z 1000))
                = Some 0) by (destruct s; reflexivity).
    split; [exact T|]. split; [lia|].
    now apply format_volt_text.
  - destruct (format_volt_finite m e V He)
      as (intV & decV & Ti & Hi & Hu & Eu & Td & Hd).
    exists intV, decV. split; [exact Ti|]. split; [exact Hi|].
    split; [apply utoa_decimal; lia|]. split; [exact Hu|].
    split; [exact Eu|]. split; [exact Td|]. split; [exact Hd|].
    now apply format_volt_text.
Qed.

Lemma format_three_digits_witness :
  exists intV decV,
    to_int (dec_lit 29464 1000) = Some intV
    /\ 0 <= intV <= 32767
    /\ atou (utoa intV) = intV
    /\ 0 <= units (dec_lit 29464 1000) - intV * 2 ^ 149 < 2 ^ 149
    /\ units (fsub (dec_lit 29464 1000) (of_Z intV))
       = units (dec_lit 29464 1000) - intV * 2 ^ 149
    /\ to_int (fmul (fsub (dec_lit 29464 1000) (of_Z intV)) (of_Z 1000))
       = Some decV
    /\ 0 <= decV <= 999
    /\ format_volt (dec_lit 29464 1000)
       = Some (utoa intV ++ "." ++ three_digits decV ++ " V")%string.
Proof.
  apply (proj1 format_three_digits (dec_lit 29464 1000));
    vm_compute; reflexivity.
Defined.

(** C2 as stated fails: 100000.0 is a valid non-negative binary32, but
    its integer part does not fit the 16-bit [int] of the target, the cast
    is undefined and no text is specified (a 16-bit [%u] could not print
    100000 in any case). *)
Lemma format_counterexample :
  valid (of_Z 100000) = true
  /\ fleb (S754_zero false) (of_Z 100000) = true
  /\ trunc (of_Z 100000) = Some 100000
  /\ to_int (of_Z 100000) = None
  /\ format_volt (of_Z 100000) = None.
Proof. repeat split; vm_compute; reflexivity. Qed.

(** * The voltage reconstruction *)

(** ** The order on non-negative numbers *)





(** The open-format expression is the source expression at binary32; at
    binary64 the full-scale reconstruction also lies above the product
    of the reference and the ratio. *)
Lemma peak_volts_in_binary32 s : peak_volts_in prec emax s = peak_volts s.
Proof. reflexivity. Qed.

Lemma peak_endpoint_binary64 :
  SFltb (peak_product_in 53 1024) (peak_volts_in 53 1024 1023) = true.
Proof. vm_compute. reflexivity. Qed.



(** C1.  The two conversions of the source are the reconstruction
    formula sample * referenceVoltage * (dividerNumerator /
    dividerDenominator) / fullScaleCode at the two profiles; the
    peak-signal profile has reference 1.1, divider (495.2 + 101.65) /
    101.65 and full scale 1023, the bias-signal profile has reference 5.0,
    divider (498.1 + 101.8) / 101.8 and full scale 1023, each constant
    being the binary32 number nearest to the decimal written; a pass with
    Stop deciding stores and shows the peak reconstruction of the
    accumulator, a pass in state 3 stores and shows the bias
    reconstruction of its sample. *)
Theorem reconstruction_formula :
  (forall s,
     peak_volts s = reconstruct s peakProfile
     /\ bias_volts s = reconstruct s biasProfile)
  /\ (referenceVoltage peakProfile = c_1_1
      /\ nearest_to 11 10 c_1_1 = true
      /\ dividerNumerator peakProfile = fadd c_495_2 c_101_65
      /\ nearest_to 4952 10 c_495_2 = true
      /\ dividerDenominator peakProfile = c_101_65
      /\ nearest_to 10165 100 c_101_65 = true
      /\ fullScaleCode peakProfile = c_1023_0
      /\ c_1023_0 = of_Z 1023)
  /\ (referenceVoltage biasProfile = c_5_0
      /\ c_5_0 = of_Z 5
      /\ dividerNumerator biasProfile = fadd c_498_1 c_101_8
      /\ nearest_to 4981 10 c_498_1 = true
      /\ dividerDenominator biasProfile = c_101_8
      /\ nearest_to 1018 10 c_101_8 = true
      /\ fullScaleCode biasProfile = c_1023_0)
  /\ (forall inp l,
        acc_ok l -> start_active inp = false -> stop_active inp = true ->
        exists shown,
          yields (loop_body inp l)
                 (mkLocals (peakVoltage l) (Vread l) (bias l)
                           (reconstruct (peakVoltage l) peakProfile) 2)
                 (peak_screen shown)
          /\ format_volt (reconstruct (peakVoltage l) peakProfile)
             = Some shown)
  /\ (forall inp l,
        state l = 3 -> no_button inp = true -> adc_ok inp = true ->
        exists shown,
          yields (loop_body inp l)
                 (mkLocals (peakVoltage l) (ADC inp)
                           (Some (reconstruct (ADC inp) biasProfile))
                           (peak l) 3)
                 (bias_refresh shown)
          /\ format_volt (reconstruct (ADC inp) biasProfile) = Some shown).
Proof.
  split; [intros s; split; reflexivity|].
  split; [repeat split; vm_compute; reflexivity|].
  split; [repeat split; vm_compute; reflexivity|].
  split.
  - intros inp l A B1 B2.
    destruct (peak_volts_shown (peakVoltage l) A) as [shown F].
    exists shown. split; [now apply pass_stop | exact F].
  - intros inp l S N Hadc. pose proof (adc_ok_range inp Hadc) as R.
    pose proof (sample_of_ok inp Hadc) as Es.
    destruct (bias_volts_shown (ADC inp) R) as [shown F].
    exists shown. split; [|exact F].
    apply pass_none; [exact N|]. rewrite <- Es in *.
    now apply yields_mode_readingBias.
Qed.

Lemma reconstruction_formula_witness :
  exists shown,
    yields (loop_body (mkInputs 2 0) (mkLocals 450 450 None (S754_zero false) 1))
           (mkLocals 450 450 None (reconstruct 450 peakProfile) 2)
           (peak_screen shown)
    /\ format_volt (reconstruct 450 peakProfile) = Some shown.
Proof.
  destruct reconstruction_formula as (_ & _ & _ & P & _).
  apply (P (mkInputs 2 0) (mkLocals 450 450 None (S754_zero false) 1));
    first [reflexivity | unfold acc_ok; cbn; lia].
Defined.

(** * Further properties of the helpers *)

(** ** What the display helpers change *)

Lemma lcd_cmd_after c h :
  0 <= c < 256 -> lcd_cmd c h = Some (tt, after_latch (LcdCmd c) h).
Proof.
  intros Hc. rewrite lcd_cmd_run. unfold C.to_uint8.
  now rewrite Z.mod_small.
Qed.

Lemma lcd_data_after d h :
  0 <= d < 256 -> lcd_data d h = Some (tt, after_latch (LcdData d) h).
Proof.
  intros Hd. rewrite lcd_data_run. unfold C.to_uint8.
  now rewrite Z.mod_small.
Qed.

Lemma after_events_frame evs :
  forall h,
    lcd (after_events evs h) = lcd h ++ evs
    /\ adc_regs (after_events evs h) = adc_regs h
    /\ DDRB (after_events evs h) = DDRB h
    /\ DDRD (after_events evs h) = DDRD h.
Proof.
  induction evs as [|ev evs IH]; intros h; cbn [after_events fold_left].
  - now rewrite app_nil_r.
  - destruct (IH (after_latch ev h)) as (L & R & B & D).
    unfold after_events in *. rewrite L, R, B, D.
    destruct ev; cbn; now rewrite <- app_assoc.
Qed.

Lemma lcd_str_run str :
  forall h,
    lcd_str str h = Some (tt, after_events (lcd_text (c_string str)) h).
Proof.
  induction str as [|c str IH]; intros h; [reflexivity|].
  cbn [lcd_str c_string]. destruct (char_code c =? 0); [reflexivity|].
  unfold bind. rewrite (lcd_data_after _ h (char_code_range c)).
  rewrite IH. reflexivity.
Qed.

(** What follows a character 0 is not part of the string. *)
Lemma c_string_terminated a b :
  nul_free a = true -> c_string (a ++ String Ascii.zero b) = a.
Proof.
  unfold nul_free. induction a as [|c a IH]; [reflexivity|].
  cbn [append list_ascii_of_string forallb c_string]. intros H.
  apply andb_true_iff in H. destruct H as [Hc Ha].
  destruct (char_code c =? 0); [discriminate Hc|]. now rewrite IH.
Qed.

(** X1.  [lcd_str] sends the characters that come before the terminator,
    and nothing else: for a string [a] holding no character 0 the display
    latches exactly the characters of [a], in order and each as data, and
    for [a] followed by a character 0 and any further characters it
    latches the same and nothing of what follows.  The call is defined
    from every hardware state, leaves the converter registers and the
    direction registers alone, and changes nothing for the empty
    string. *)
Theorem lcd_str_effect a b h :
  nul_free a = true ->
  lcd_str a h = Some (tt, after_events (lcd_text a) h)
  /\ lcd_str (a ++ String Ascii.zero b) h
     = Some (tt, after_events (lcd_text a) h)
  /\ lcd (after_events (lcd_text a) h) = lcd h ++ lcd_text a
  /\ List.length (lcd_text a) = String.length a
  /\ adc_regs (after_events (lcd_text a) h) = adc_regs h
  /\ DDRB (after_events (lcd_text a) h) = DDRB h
  /\ DDRD (after_events (lcd_text a) h) = DDRD h
  /\ lcd_str EmptyString h = Some (tt, h).
Proof.
  intros N. split; [|split].
  - now rewrite lcd_str_run, c_string_nul_free.
  - now rewrite lcd_str_run, c_string_terminated.
  - destruct (after_events_frame (lcd_text a) h) as (L & R & B & D).
    split; [exact L|]. split; [|now repeat split].
    clear. unfold lcd_text. rewrite length_map.
    induction a as [|c a IH]; cbn; [reflexivity | now rewrite IH].
Qed.

Lemma lcd_str_effect_witness :
  lcd_str "0.5 V" power_up_hw
  = Some (tt, after_events (lcd_text "0.5 V") power_up_hw)
  /\ lcd_str ("0.5 V" ++ String Ascii.zero "12") power_up_hw
     = Some (tt, after_events (lcd_text "0.5 V") power_up_hw)
  /\ lcd (after_events (lcd_text "0.5 V") power_up_hw)
     = lcd power_up_hw ++ lcd_text "0.5 V"
  /\ List.length (lcd_text "0.5 V") = String.length "0.5 V"
  /\ adc_regs (after_events (lcd_text "0.5 V") power_up_hw)
     = adc_regs power_up_hw
  /\ DDRB (after_events (lcd_text "0.5 V") power_up_hw) = DDRB power_up_hw
  /\ DDRD (after_events (lcd_text "0.5 V") power_up_hw) = DDRD power_up_hw
  /\ lcd_str EmptyString power_up_hw = Some (tt, power_up_hw).
Proof.
  apply (lcd_str_effect "0.5 V" "12" power_up_hw). reflexivity.
Defined.

(** ** What [read_adc] changes *)

Lemma to_uint8_land x : C.to_uint8 x = Z.land x 255.
Proof.
  unfold C.to_uint8. change 256 with (2 ^ 8). rewrite <- Z.land_ones by lia.
  reflexivity.
Qed.

Lemma mod16_land x : x mod 16 = Z.land x 15.
Proof.
  change 16 with (2 ^ 4). rewrite <- Z.land_ones by lia. reflexivity.
Qed.

Lemma read_adc_ADMUX m channel :
  C.to_uint8 (Z.lor (Z.land m 0xF0) (Z.land (C.to_uint8 channel) 0x0F))
  = Z.lor (Z.land m 0xF0) (channel mod 16).
Proof.
  rewrite !to_uint8_land, mod16_land, Z.land_lor_distr_l.
  rewrite <- !Z.land_assoc. reflexivity.
Qed.

Lemma read_adc_run inp channel h :
  read_adc inp channel h
  = Some (ADC inp mod 65536,
          mkHw (DDRB h) (DDRD h) (PORTB h) (PORTD h)
               (Z.lor (Z.land (ADMUX h) 0xF0) (channel mod 16))
               (converted (ADCSRA h)) (lcd h)).
Proof.
  unfold read_adc, bind, read_ADMUX, write_ADMUX, read_ADCSRA,
    write_ADCSRA, conversion_complete, ret.
  cbn [ADMUX ADCSRA DDRB DDRD PORTB PORTD lcd].
  rewrite read_adc_ADMUX. reflexivity.
Qed.

Lemma converted_ADSC a : Z.testbit (converted a) ADSC = false.
Proof.
  unfold converted. rewrite Z.lor_spec, Z.land_spec.
  change (Z.testbit (Z.lnot (Z.shiftl 1 ADSC)) ADSC) with false.
  now rewrite andb_false_r.
Qed.

Lemma ADMUX_reference m c :
  Z.land (Z.lor (Z.land m 0xF0) (c mod 16)) 0xF0 = Z.land m 0xF0.
Proof.
  rewrite mod16_land, Z.land_lor_distr_l, <- !Z.land_assoc.
  change (Z.land 0xF0 0xF0) with 0xF0. change (Z.land 15 0xF0) with 0.
  now rewrite Z.land_0_r, Z.lor_0_r.
Qed.

Lemma ADMUX_channel m c :
  Z.land (Z.lor (Z.land m 0xF0) (c mod 16)) 0x0F = c mod 16.
Proof.
  rewrite mod16_land, Z.land_lor_distr_l, <- !Z.land_assoc.
  change (Z.land 0xF0 0x0F) with 0. change (Z.land 15 0x0F) with 15.
  now rewrite Z.land_0_r, Z.lor_0_l.
Qed.

Lemma land_16 a : Z.land a 16 = 0 \/ Z.land a 16 = 16.
Proof.
  assert (E : Z.land a 16 = Z.land (a mod 32) 16).
  { change 32 with (2 ^ 5). rewrite <- Z.land_ones, <- Z.land_assoc by lia.
    reflexivity. }
  rewrite E. pose proof (Z.mod_pos_bound a 32 ltac:(lia)) as B.
  assert (K : (Z.land (a mod 32) 16 =? 0) || (Z.land (a mod 32) 16 =? 16)
              = true).
  { apply (all_below_spec 32
             (fun y => (Z.land y 16 =? 0) || (Z.land y 16 =? 16)));
      [vm_compute; reflexivity | lia]. }
  apply orb_true_iff in K. destruct K as [K|K]; apply Z.eqb_eq in K; tauto.
Qed.

(** Whatever ADCSRA held, after the configuration byte 0x83 has been
    written and a conversion has completed it holds that byte and the
    flag of the converter. *)
Lemma configured_converted a : converted (stored_ADCSRA a 0x83) = 0x93.
Proof.
  assert (E : stored_ADCSRA a 0x83 = Z.lor 0x83 (Z.land a 16)).
  { unfold stored_ADCSRA.
    change (Z.land 0x83 (Z.lnot (Z.shiftl 1 ADIF))) with 0x83.
    change (Z.shiftl 1 ADIF) with 16. rewrite <- Z.land_assoc.
    reflexivity. }
  rewrite E. destruct (land_16 a) as [K|K]; rewrite K; reflexivity.
Qed.

Lemma adc_init_run h :
  adc_init h
  = Some (tt, mkHw (DDRB h) (DDRD h) (PORTB h) (PORTD h) 0x40
                   (stored_ADCSRA (ADCSRA h) 0x83) (lcd h)).
Proof. reflexivity. Qed.

Lemma adc_initBG_run h :
  adc_initBG h
  = Some (tt, mkHw (DDRB h) (DDRD h) (PORTB h) (PORTD h) 0x80
                   (stored_ADCSRA (ADCSRA h) 0x83) (lcd h)).
Proof. reflexivity. Qed.

(** X2.  How the converter helpers compose, from every hardware state.
    [read_adc] returns the data register as a 16-bit number, keeps the
    upper four bits of ADMUX (the reference selection), puts the channel
    modulo 16 into the lower four, returns with the start bit ADSC clear,
    and touches neither the ports nor the display.  After two calls ADMUX
    is what the second call alone would leave: the last channel wins and
    the reference is still the one selected before.  After [adc_init]
    and a read ADMUX is 0x40 with the channel, after [adc_initBG] and a
    read it is 0x80 with the channel; in both cases ADCSRA is, apart
    from the converter's flag ADIF, the byte 0x83 the helper wrote. *)
Theorem read_adc_effect inp1 inp2 c1 c2 h :
  (exists h1,
     read_adc inp1 c1 h = Some (ADC inp1 mod 65536, h1)
     /\ Z.land (ADMUX h1) 0xF0 = Z.land (ADMUX h) 0xF0
     /\ Z.land (ADMUX h1) 0x0F = c1 mod 16
     /\ Z.testbit (ADCSRA h1) ADSC = false
     /\ lcd h1 = lcd h /\ PORTB h1 = PORTB h /\ PORTD h1 = PORTD h
     /\ DDRB h1 = DDRB h /\ DDRD h1 = DDRD h)
  /\ (exists h2 h2',
        (read_adc inp1 c1 ;; read_adc inp2 c2) h
        = Some (ADC inp2 mod 65536, h2)
        /\ read_adc inp2 c2 h = Some (ADC inp2 mod 65536, h2')
        /\ ADMUX h2 = ADMUX h2'
        /\ Z.land (ADMUX h2) 0xF0 = Z.land (ADMUX h) 0xF0
        /\ Z.land (ADMUX h2) 0x0F = c2 mod 16)
  /\ (exists h3,
        (adc_init ;; read_adc inp1 c1) h = Some (ADC inp1 mod 65536, h3)
        /\ ADMUX h3 = Z.lor 0x40 (c1 mod 16)
        /\ Z.land (ADCSRA h3) 0xEF = 0x83)
  /\ (exists h4,
        (adc_initBG ;; read_adc inp1 c1) h = Some (ADC inp1 mod 65536, h4)
        /\ ADMUX h4 = Z.lor 0x80 (c1 mod 16)
        /\ Z.land (ADCSRA h4) 0xEF = 0x83).
Proof.
  split; [|split; [|split]].
  - eexists. split; [apply read_adc_run|].
    cbn [ADMUX ADCSRA lcd PORTB PORTD DDRB DDRD].
    split; [apply ADMUX_reference|]. split; [apply ADMUX_channel|].
    split; [apply converted_ADSC|]. now repeat split.
  - eexists. eexists. unfold bind. rewrite read_adc_run.
    split; [apply read_adc_run|]. split; [apply read_adc_run|].
    cbn [ADMUX]. rewrite !ADMUX_reference.
    split; [reflexivity|]. split; [reflexivity | apply ADMUX_channel].
  - eexists. unfold bind. rewrite adc_init_run.
    split; [apply read_adc_run|]. cbn [ADMUX ADCSRA].
    split; [reflexivity|]. now rewrite configured_converted.
  - eexists. unfold bind. rewrite adc_initBG_run.
    split; [apply read_adc_run|]. cbn [ADMUX ADCSRA].
    split; [reflexivity|]. now rewrite configured_converted.
Qed.

(** ** The converter registers along the helpers *)

Lemma effect_ret {A : Type} (a : A) : effect (ret a) a (fun r => r).
Proof. intros h a' h' E. unfold ret in E. now inversion E. Qed.

Lemma effect_bind {A B : Type} (c : IO A) (k : A -> IO B) a b f g :
  effect c a f -> effect (k a) b g -> effect (bind c k) b (fun r => g (f r)).
Proof.
  intros Hc Hk h b' h' E. unfold bind in E.
  destruct (c h) as [[a1 h1]|] eqn:E1; [|discriminate].
  destruct (Hc h a1 h1 E1) as [-> R1].
  destruct (Hk h1 b' h' E) as [-> R2]. split; [reflexivity|].
  now rewrite R2, R1.
Qed.

Lemma effect_ext {A : Type} (c : IO A) a f g :
  effect c a f -> (forall r, f r = g r) -> effect c a g.
Proof.
  intros H E h a' h' R. destruct (H h a' h' R) as [-> K].
  split; [reflexivity|]. now rewrite K.
Qed.

Lemma effect_lcd_cmd c : effect (lcd_cmd c) tt (fun r => r).
Proof.
  intros h a' h' E. rewrite lcd_cmd_run in E. inversion E; subst. now split.
Qed.

Lemma effect_lcd_data d : effect (lcd_data d) tt (fun r => r).
Proof.
  intros h a' h' E. rewrite lcd_data_run in E. inversion E; subst. now split.
Qed.

Lemma effect_lcd_str s : effect (lcd_str s) tt (fun r => r).
Proof.
  intros h a' h' E. rewrite lcd_str_run in E.
  destruct (after_events_frame (lcd_text (c_string s)) h) as (_ & K & _).
  inversion E; subst. now split.
Qed.

Lemma effect_write_ADMUX v :
  effect (write_ADMUX v) tt (fun r => (C.to_uint8 v, snd r)).
Proof. intros h a' h' E. inversion E; subst. now split. Qed.

Lemma effect_write_ADCSRA v :
  effect (write_ADCSRA v) tt
         (fun r => (fst r, stored_ADCSRA (snd r) (C.to_uint8 v))).
Proof. intros h a' h' E. inversion E; subst. now split. Qed.

Lemma effect_read_adc inp channel :
  effect (read_adc inp channel) (ADC inp mod 65536) (adc_select channel).
Proof.
  intros h a' h' E. rewrite read_adc_run in E. inversion E; subst.
  now split.
Qed.

Lemma effect_print_volt v : effect (print_volt v) tt (fun r => r).
Proof.
  unfold print_volt. destruct (format_volt v) as [shown|]; cbn [lift].
  - apply (effect_ext _ _ (fun r => r)); [|reflexivity].
    exact (effect_bind _ _ _ _ _ _ (effect_ret shown) (effect_lcd_str shown)).
  - intros h a' h' E. discriminate E.
Qed.

Ltac effect_call :=
  lazymatch goal with
  | |- effect (ret _) _ _ => apply effect_ret
  | |- effect (lcd_str _) _ _ => apply effect_lcd_str
  | |- effect (lcd_cmd _) _ _ => apply effect_lcd_cmd
  | |- effect (lcd_data _) _ _ => apply effect_lcd_data
  | |- effect (write_ADMUX _) _ _ => apply effect_write_ADMUX
  | |- effect (write_ADCSRA _) _ _ => apply effect_write_ADCSRA
  | |- effect (read_adc _ _) _ _ => apply effect_read_adc
  | |- effect (print_volt _) _ _ => apply effect_print_volt
  end.

Ltac effect_run :=
  repeat (cbv beta zeta;
          lazymatch goal with
          | |- effect (bind _ _) _ _ => eapply effect_bind; [effect_call|]
          | |- effect _ _ _ => effect_call
          end).

Lemma effect_lcd_init : effect lcd_init tt (fun r => r).
Proof.
  unfold lcd_init. eapply effect_ext; [effect_run | reflexivity].
Qed.

Lemma effect_print_APEL : effect print_APEL tt (fun r => r).
Proof.
  unfold print_APEL. eapply effect_ext; [effect_run | reflexivity].
Qed.

Lemma effect_adc_init :
  effect adc_init tt (fun r => (0x40, stored_ADCSRA (snd r) 0x83)).
Proof.
  unfold adc_init. eapply effect_ext; [effect_run | reflexivity].
Qed.

Lemma effect_adc_initBG :
  effect adc_initBG tt (fun r => (0x80, stored_ADCSRA (snd r) 0x83)).
Proof.
  unfold adc_initBG. eapply effect_ext; [effect_run | reflexivity].
Qed.

Ltac effect_call' :=
  lazymatch goal with
  | |- effect lcd_init _ _ => apply effect_lcd_init
  | |- effect print_APEL _ _ => apply effect_print_APEL
  | |- effect adc_init _ _ => apply effect_adc_init
  | |- effect adc_initBG _ _ => apply effect_adc_initBG
  | |- _ => effect_call
  end.

Ltac effect_run' :=
  repeat (cbv beta zeta;
          lazymatch goal with
          | |- effect (bind _ _) _ _ => eapply effect_bind; [effect_call'|]
          | |- effect _ _ _ => effect_call'
          end).

(** The [if] chain: the locals it returns and what it does to the
    converter registers. *)
Lemma effect_buttons inp l :
  effect (buttons inp l)
         (if start_active inp then set_peakVoltage 0 (set_state 1 l)
          else if stop_active inp
               then set_peak (peak_volts (peakVoltage l)) (set_state 2 l)
               else if readBias_active inp then set_state 3 l else l)
         (fun r => if start_active inp
                   then (0x80, stored_ADCSRA (snd r) 0x83)
                   else if stop_active inp then r
                        else if readBias_active inp
                             then (0x40, stored_ADCSRA (snd r) 0x83)
                             else r).
Proof.
  unfold buttons.
  change (Z.land (PIND inp) 1 =? 1) with (start_active inp).
  change (Z.land (PIND inp) 2 =? 2) with (stop_active inp).
  change (Z.land (PIND inp) 4 =? 4) with (readBias_active inp).
  destruct (start_active inp);
    [eapply effect_ext; [effect_run' | reflexivity]|].
  destruct (stop_active inp);
    [eapply effect_ext; [effect_run' | reflexivity]|].
  destruct (readBias_active inp);
    [eapply effect_ext; [effect_run' | reflexivity]|].
  apply effect_ret.
Qed.

(** The [switch]: the state it leaves and what it does to the converter
    registers. *)
Lemma effect_mode_action inp l :
  exists l',
    effect (mode_action inp l) l'
           (fun r => if state l =? 1 then adc_select 7 r
                     else if state l =? 3 then adc_select 1 r else r)
    /\ state l' = state l.
Proof.
  unfold mode_action.
  destruct (Z.eqb_spec (state l) 1) as [S1|S1].
  - eexists. split; [eapply effect_ext; [effect_run' | reflexivity]|].
    cbn [Vread set_Vread peakVoltage].
    destruct (C.uint16_to_int (ADC inp mod 65536) >? peakVoltage l); reflexivity.
  - destruct (Z.eqb_spec (state l) 3) as [S3|S3].
    + eexists. split.
      * eapply effect_ext.
        -- eapply effect_bind; [apply effect_read_adc|]. cbv beta zeta.
           eapply effect_bind; [apply effect_lcd_cmd|].
           cbn [bias set_bias]. effect_run'.
        -- reflexivity.
      * reflexivity.
    + exists l. split; [apply effect_ret | reflexivity].
Qed.

(** One pass keeps the converter configured for the state. *)
Lemma pass_configured inp l h l' h' :
  adc_configured (state l) (adc_regs h) ->
  loop_body inp l h = Some (l', h') ->
  adc_configured (state l') (adc_regs h').
Proof.
  intros I E. unfold loop_body, bind in E.
  destruct (buttons inp l h) as [[l1 h1]|] eqn:E1; [|discriminate].
  destruct (effect_buttons inp l h l1 h1 E1) as [L1 R1].
  destruct (effect_mode_action inp l1) as (l2 & M & S2).
  destruct (M h1 l' h' E) as [-> R2]. rewrite S2, R2, R1, L1. clear - I.
  unfold adc_configured in *.
  destruct (start_active inp).
  { right; left. split; [reflexivity|].
    change (state (set_peakVoltage 0 (set_state 1 l)) =? 1) with true.
    unfold adc_select. cbn [fst snd]. now rewrite configured_converted. }
  destruct (stop_active inp).
  { right; right; left. split; [reflexivity|].
    cbn [state set_peak set_state Z.eqb Pos.eqb].
    destruct I as [[_ R]|[[_ R]|[[_ R]|[_ R]]]]; tauto. }
  destruct (readBias_active inp).
  { right; right; right. split; [reflexivity|].
    change (state (set_state 3 l) =? 1) with false.
    change (state (set_state 3 l) =? 3) with true.
    unfold adc_select. cbn [fst snd]. now rewrite configured_converted. }
  destruct I as [[S R]|[[S R]|[[S R]|[S R]]]]; rewrite S;
    cbn [Z.eqb Pos.eqb].
  - left. now split.
  - right; left. rewrite R. split; reflexivity.
  - right; right; left. now split.
  - right; right; right. rewrite R. split; reflexivity.
Qed.

(** * Further properties of the mode machine *)

Lemma passes_configured inps :
  forall l h l' h',
    adc_configured (state l) (adc_regs h) ->
    passes inps l h = Some (l', h') ->
    adc_configured (state l') (adc_regs h').
Proof.
  induction inps as [|inp inps IH]; intros l h l' h' I E; cbn [passes] in E.
  - unfold ret in E. now inversion E; subst.
  - unfold bind in E.
    destruct (loop_body inp l h) as [[l1 h1]|] eqn:E1; [|discriminate].
    exact (IH l1 h1 l' h' (pass_configured inp l h l1 h1 I E1) E).
Qed.

Lemma main_passes inps :
  main inps = passes inps declared_locals power_up_hw.
Proof. unfold main, bind. now rewrite main_setup_run. Qed.

Lemma passes_app a b :
  forall l h,
    passes (a ++ b) l h
    = match passes a l h with
      | Some (l1, h1) => passes b l1 h1
      | None => None
      end.
Proof.
  induction a as [|inp a IH]; intros l h; [reflexivity|].
  cbn [app passes]. unfold bind.
  destruct (loop_body inp l h) as [[l1 h1]|]; [apply IH | reflexivity].
Qed.

(** A pass that ends in state 2 has not touched the converter. *)
Lemma pass_into_stopped inp l h l' h' :
  loop_body inp l h = Some (l', h') -> state l' = 2 ->
  adc_regs h' = adc_regs h.
Proof.
  intros E S. unfold loop_body, bind in E.
  destruct (buttons inp l h) as [[l1 h1]|] eqn:E1; [|discriminate].
  destruct (effect_buttons inp l h l1 h1 E1) as [L1 R1].
  destruct (effect_mode_action inp l1) as (l2 & M & S2).
  destruct (M h1 l' h' E) as [-> R2]. rewrite S2 in S.
  rewrite R2, R1. rewrite L1 in S |- *. clear - S.
  destruct (start_active inp); [discriminate S|].
  destruct (stop_active inp); [reflexivity|].
  destruct (readBias_active inp); [discriminate S|].
  rewrite S. reflexivity.
Qed.

(** X3.  Along every run from reset the converter is configured for the
    state.  In state 0 ADMUX and ADCSRA are still 0.  In state 1
    (Acquiring) ADMUX is 0x87: channel 7 with the reference bits as
    [adc_initBG] writes them, REFS1 set and REFS0 clear.  In state 3
    (ReadingBias) ADMUX is 0x41: channel 1 with REFS0 set.  In both,
    ADCSRA is, apart from the converter's flag ADIF, the byte 0x83 that
    was written: enabled, prescaler 8, start bit clear.  A pass that ends
    in state 2 leaves both registers exactly as the run before that pass
    had them. *)
Theorem adc_follows_mode inps inp l h :
  main inps = Some (l, h) ->
  (state l = 0 -> ADMUX h = 0 /\ ADCSRA h = 0)
  /\ (state l = 1 ->
      ADMUX h = 0x87 /\ Z.land (ADCSRA h) 0xEF = 0x83
      /\ Z.testbit (ADMUX h) REFS1 = true /\ Z.testbit (ADMUX h) REFS0 = false)
  /\ (state l = 3 ->
      ADMUX h = 0x41 /\ Z.land (ADCSRA h) 0xEF = 0x83
      /\ Z.testbit (ADMUX h) REFS1 = false /\ Z.testbit (ADMUX h) REFS0 = true)
  /\ (forall l' h',
        loop_body inp l h = Some (l', h') -> state l' = 2 ->
        main (inps ++ [inp]) = Some (l', h')
        /\ ADMUX h' = ADMUX h /\ ADCSRA h' = ADCSRA h).
Proof.
  intros E. rewrite main_passes in E.
  assert (I0 : adc_configured (state declared_locals) (adc_regs power_up_hw))
    by (left; split; reflexivity).
  pose proof (passes_configured inps _ _ _ _ I0 E) as I.
  unfold adc_configured, adc_regs in I.
  split; [|split; [|split]].
  - intros S. rewrite S in I.
    destruct I as [[S' R]|[[S' R]|[[S' R]|[S' R]]]]; try discriminate S'.
    inversion R as [[R1 R2]]. now split.
  - intros S. rewrite S in I.
    destruct I as [[S' R]|[[S' R]|[[S' R]|[S' R]]]]; try discriminate S'.
    inversion R as [[R1 R2]]. rewrite ?R1, ?R2. repeat split; reflexivity.
  - intros S. rewrite S in I.
    destruct I as [[S' R]|[[S' R]|[[S' R]|[S' R]]]]; try discriminate S'.
    inversion R as [[R1 R2]]. rewrite ?R1, ?R2. repeat split; reflexivity.
  - intros l' h' P S. clear I I0. split.
    + rewrite main_passes, passes_app, E. cbn [passes]. unfold bind.
      rewrite P. reflexivity.
    + pose proof (pass_into_stopped inp l h l' h' P S) as R.
      unfold adc_regs in R. inversion R as [[R1 R2]]. now split.
Qed.

Lemma adc_follows_mode_witness :
  exists l h,
    main [mkInputs 1 100; idle_inp 300] = Some (l, h)
    /\ (state l = 0 -> ADMUX h = 0 /\ ADCSRA h = 0)
    /\ (state l = 1 ->
        ADMUX h = 0x87 /\ Z.land (ADCSRA h) 0xEF = 0x83
        /\ Z.testbit (ADMUX h) REFS1 = true
        /\ Z.testbit (ADMUX h) REFS0 = false)
    /\ (state l = 3 ->
        ADMUX h = 0x41 /\ Z.land (ADCSRA h) 0xEF = 0x83
        /\ Z.testbit (ADMUX h) REFS1 = false
        /\ Z.testbit (ADMUX h) REFS0 = true)
    /\ (forall l' h',
          loop_body (mkInputs 2 0) l h = Some (l', h') -> state l' = 2 ->
          main ([mkInputs 1 100; idle_inp 300] ++ [mkInputs 2 0])
          = Some (l', h')
          /\ ADMUX h' = ADMUX h /\ ADCSRA h' = ADCSRA h).
Proof.
  eexists. eexists. split; [vm_compute; reflexivity|].
  apply (adc_follows_mode [mkInputs 1 100; idle_inp 300] (mkInputs 2 0)).
  vm_compute. reflexivity.
Defined.

(** X4.  For every sequence of passes whose samples are 10-bit codes the
    program is defined: no cast of [print_volt] is undefined and its
    buffer is never overrun; the accumulator stays a 10-bit code and the
    state stays one of 0, 1, 2, 3. *)
Theorem main_defined inps :
  forallb adc_ok inps = true ->
  exists l h,
    main inps = Some (l, h)
    /\ 0 <= peakVoltage l <= 1023
    /\ (state l = 0 \/ state l = 1 \/ state l = 2 \/ state l = 3).
Proof.
  intros Hadc.
  assert (A0 : acc_ok declared_locals) by (unfold acc_ok; cbn; lia).
  destruct (passes_total _ _ A0 Hadc) as (l & evs & Y & A & S).
  destruct (main_of_passes _ _ _ Y) as (h & E & _).
  exists l, h. split; [exact E|]. split; [exact A|].
  rewrite S. clear.
  assert (K : forall st, st = 0 \/ st = 1 \/ st = 2 \/ st = 3 ->
              let st' := fold_left (fun st i => next_state i st) inps st in
              st' = 0 \/ st' = 1 \/ st' = 2 \/ st' = 3).
  { induction inps as [|i inps IH]; intros st Hst; [exact Hst|].
    cbn [fold_left]. apply IH. unfold next_state.
    destruct (start_active i); [right; left; reflexivity|].
    destruct (stop_active i); [right; right; left; reflexivity|].
    destruct (readBias_active i); [right; right; right; reflexivity|].
    exact Hst. }
  apply (K (state declared_locals)). left. reflexivity.
Qed.

Lemma main_defined_witness :
  exists l h,
    main [mkInputs 1 1023; idle_inp 0; mkInputs 4 1023; mkInputs 2 7]
    = Some (l, h)
    /\ 0 <= peakVoltage l <= 1023
    /\ (state l = 0 \/ state l = 1 \/ state l = 2 \/ state l = 3).
Proof.
  apply (main_defined
           [mkInputs 1 1023; idle_inp 0; mkInputs 4 1023; mkInputs 2 7]).
  reflexivity.
Defined.

(** X5.  A pass with no button active, outside state 3.  In every state
    other than 1 and 3 it changes neither a variable nor the hardware.
    In state 1 it samples channel 7 and nothing else: ADMUX keeps its
    reference bits and gets channel 7, ADSC is clear again, [Vread] is
    the sample, the accumulator is the larger of its old value and the
    sample, the other variables are as they were, and the display, the
    ports and the direction registers are untouched. *)
Theorem silent_passes inp l h :
  no_button inp = true ->
  (state l <> 1 -> state l <> 3 -> loop_body inp l h = Some (l, h))
  /\ (state l = 1 ->
      exists l' h',
        loop_body inp l h = Some (l', h')
        /\ lcd h' = lcd h /\ PORTB h' = PORTB h /\ PORTD h' = PORTD h
        /\ state l' = 1
        /\ DDRB h' = DDRB h /\ DDRD h' = DDRD h
        /\ ADMUX h' = Z.lor (Z.land (ADMUX h) 0xF0) 7
        /\ Z.testbit (ADCSRA h') ADSC = false
        /\ Vread l' = sample_of inp
        /\ peakVoltage l' = Z.max (peakVoltage l) (sample_of inp)
        /\ bias l' = bias l /\ peak l' = peak l).
Proof.
  intros N. destruct (no_button_false inp N) as (B1 & B2 & B3).
  assert (E : buttons inp l h = Some (l, h)).
  { unfold buttons.
    change (Z.land (PIND inp) 1 =? 1) with (start_active inp).
    change (Z.land (PIND inp) 2 =? 2) with (stop_active inp).
    change (Z.land (PIND inp) 4 =? 4) with (readBias_active inp).
    now rewrite B1, B2, B3. }
  split.
  - intros S1 S3. unfold loop_body, bind. rewrite E. unfold mode_action.
    destruct (Z.eqb_spec (state l) 1); [contradiction|].
    destruct (Z.eqb_spec (state l) 3); [contradiction|]. reflexivity.
  - intros S1. unfold loop_body, bind. rewrite E. unfold mode_action.
    rewrite S1. cbn [Z.eqb Pos.eqb]. unfold bind.
    rewrite read_adc_run.
    cbv beta zeta. unfold ret. eexists. eexists.
    split; [reflexivity|]. cbn [lcd PORTB PORTD DDRB DDRD ADMUX ADCSRA].
    change (C.uint16_to_int (ADC inp mod 65536)) with (sample_of inp).
    split; [reflexivity|]. split; [reflexivity|]. split; [reflexivity|].
    cbn [Vread set_Vread peakVoltage].
    destruct (Z.gtb_spec (sample_of inp) (peakVoltage l)) as [G|G];
      cbn [state Vread peakVoltage bias peak set_peakVoltage set_Vread];
      (split; [exact S1|]); (split; [reflexivity|]);
      (split; [reflexivity|]); (split; [reflexivity|]);
      (split; [apply converted_ADSC|]); (split; [reflexivity|]);
      (split; [lia|]); split; reflexivity.
Qed.

Lemma silent_passes_witness :
  exists l' h',
    loop_body (idle_inp 700) (mkLocals 450 450 None (peak_volts 450) 1)
              power_up_hw = Some (l', h')
    /\ lcd h' = lcd power_up_hw /\ PORTB h' = PORTB power_up_hw
    /\ PORTD h' = PORTD power_up_hw
    /\ state l' = 1
    /\ DDRB h' = DDRB power_up_hw /\ DDRD h' = DDRD power_up_hw
    /\ ADMUX h' = Z.lor (Z.land (ADMUX power_up_hw) 0xF0) 7
    /\ Z.testbit (ADCSRA h') ADSC = false
    /\ Vread l' = sample_of (idle_inp 700)
    /\ peakVoltage l'
       = Z.max (peakVoltage (mkLocals 450 450 None (peak_volts 450) 1))
               (sample_of (idle_inp 700))
    /\ bias l' = bias (mkLocals 450 450 None (peak_volts 450) 1)
    /\ peak l' = peak (mkLocals 450 450 None (peak_volts 450) 1).
Proof.
  apply (silent_passes (idle_inp 700)
           (mkLocals 450 450 None (peak_volts 450) 1) power_up_hw);
    reflexivity.
Defined.

(** X6.  Holding Stop: the first pass with Stop deciding stores the
    reconstruction of the accumulator and shows its text, the one
    [print_volt] builds for it, on the peak screen; every further such
    pass leaves the variables as they are and writes the same screen
    with the same text again. *)
Theorem stop_held_redraws inp1 inp2 l :
  acc_ok l ->
  start_active inp1 = false -> stop_active inp1 = true ->
  start_active inp2 = false -> stop_active inp2 = true ->
  exists l1 shown,
    yields (loop_body inp1 l) l1 (peak_screen shown)
    /\ yields (loop_body inp2 l1) l1 (peak_screen shown)
    /\ peakVoltage l1 = peakVoltage l
    /\ peak l1 = reconstruct (peakVoltage l) peakProfile
    /\ format_volt (reconstruct (peakVoltage l) peakProfile) = Some shown
    /\ state l1 = 2 /\ Vread l1 = Vread l /\ bias l1 = bias l.
Proof.
  intros A B1 B2 B3 B4.
  destruct (peak_volts_shown (peakVoltage l) A) as [shown F].
  eexists. exists shown. split; [now apply pass_stop|].
  split; [|split; [reflexivity|split; [reflexivity|split; [exact F|]]]].
  - exact (pass_stop inp2
             (mkLocals (peakVoltage l) (Vread l) (bias l)
                       (peak_volts (peakVoltage l)) 2) shown B3 B4 F).
  - now repeat split.
Qed.

Lemma stop_held_redraws_witness :
  exists l1 shown,
    yields (loop_body (mkInputs 2 0) (mkLocals 450 450 None (S754_zero false) 1))
           l1 (peak_screen shown)
    /\ yields (loop_body (mkInputs 6 9) l1) l1 (peak_screen shown)
    /\ peakVoltage l1 = peakVoltage (mkLocals 450 450 None (S754_zero false) 1)
    /\ peak l1
       = reconstruct (peakVoltage (mkLocals 450 450 None (S754_zero false) 1))
                     peakProfile
    /\ format_volt
         (reconstruct (peakVoltage (mkLocals 450 450 None (S754_zero false) 1))
                      peakProfile) = Some shown
    /\ state l1 = 2
    /\ Vread l1 = Vread (mkLocals 450 450 None (S754_zero false) 1)
    /\ bias l1 = bias (mkLocals 450 450 None (S754_zero false) 1).
Proof.
  apply (stop_held_redraws (mkInputs 2 0) (mkInputs 6 9)
           (mkLocals 450 450 None (S754_zero false) 1));
    first [reflexivity | unfold acc_ok; cbn; lia].
Defined.

(** Passes in state 3 with Start and Stop inactive keep the accumulator
    and the stored peak voltage. *)
Lemma bias_passes inps :
  forall l,
    state l = 3 ->
    forallb (fun i => negb (start_active i) && negb (stop_active i)
                      && adc_ok i) inps = true ->
    exists l' evs,
      yields (passes inps l) l' evs
      /\ peakVoltage l' = peakVoltage l /\ peak l' = peak l /\ state l' = 3.
Proof.
  induction inps as [|inp inps IH]; intros l S H.
  - exists l, []. split; [apply yields_ret | now repeat split].
  - cbn [forallb] in H. apply andb_true_iff in H. destruct H as [H Hs].
    apply andb_true_iff in H. destruct H as [H Hadc].
    apply andb_true_iff in H. destruct H as [B1 B2].
    apply negb_true_iff in B1, B2.
    pose proof (adc_ok_range inp Hadc) as R.
    pose proof (sample_of_ok inp Hadc) as Es.
    destruct (bias_volts_shown (sample_of inp)) as [shown F];
      [rewrite Es; lia|].
    assert (Y : exists l1 e1,
               yields (loop_body inp l) l1 e1
               /\ peakVoltage l1 = peakVoltage l /\ peak l1 = peak l
               /\ state l1 = 3).
    { destruct (readBias_active inp) eqn:B3.
      - eexists. eexists.
        split; [now apply (pass_readBias inp l shown)|]. now repeat split.
      - eexists. eexists.
        split; [apply pass_none;
                [now apply no_button_true
                | now apply (yields_mode_readingBias inp l shown)]|].
        now repeat split. }
    destruct Y as (l1 & e1 & Y1 & P1 & K1 & S1).
    destruct (IH l1 S1 Hs) as (l2 & e2 & Y2 & P2 & K2 & S2).
    exists l2, (e1 ++ e2).
    split; [now apply (yields_passes_cons inp inps l l1)|].
    rewrite P2, K2. now repeat split.
Qed.

(** X7.  Reading the bias between an acquisition and Stop does not
    change what Stop shows: after a pass that enters state 3 through
    Read-Bias and any number of further passes with Start and Stop
    inactive, a pass with Stop deciding shows the reconstruction of the
    accumulator as the acquisition left it. *)
Theorem stop_after_bias_shows_old_peak inpB inps inpS l :
  acc_ok l ->
  start_active inpB = false -> stop_active inpB = false ->
  readBias_active inpB = true ->
  forallb (fun i => negb (start_active i) && negb (stop_active i)
                    && adc_ok i) (inpB :: inps) = true ->
  start_active inpS = false -> stop_active inpS = true ->
  exists l' evs shown,
    yields (passes (inpB :: inps ++ [inpS]) l) l' (evs ++ peak_screen shown)
    /\ mode_of (state l') = Some Stopped
    /\ peakVoltage l' = peakVoltage l
    /\ peak l' = reconstruct (peakVoltage l) peakProfile
    /\ format_volt (reconstruct (peakVoltage l) peakProfile) = Some shown.
Proof.
  intros A B1 B2 B3 H BS1 BS2.
  cbn [forallb] in H. apply andb_true_iff in H. destruct H as [H Hs].
  apply andb_true_iff in H. destruct H as [_ Hadc].
  pose proof (adc_ok_range inpB Hadc) as R.
  pose proof (sample_of_ok inpB Hadc) as Es.
  destruct (bias_volts_shown (sample_of inpB)) as [shownB FB];
    [rewrite Es; lia|].
  pose proof (pass_readBias inpB l shownB B1 B2 B3 FB) as Y0.
  match type of Y0 with yields _ ?l1 _ =>
    destruct (bias_passes inps l1 eq_refl Hs) as (l2 & e2 & Y2 & P2 & K2 & S2)
  end.
  cbn [peakVoltage peak] in P2, K2.
  destruct (peak_volts_shown (peakVoltage l) A) as [shown F].
  rewrite <- P2 in F.
  pose proof (pass_stop inpS l2 shown BS1 BS2 F) as Y3.
  eexists. eexists. exists shown. split.
  - eapply yields_eq.
    + eapply yields_passes_cons; [exact Y0|].
      eapply yields_passes_app; [exact Y2|].
      eapply yields_passes_cons; [exact Y3 | apply yields_ret].
    + rewrite app_nil_r, !app_assoc. reflexivity.
  - cbn [state peakVoltage peak]. rewrite P2 in *.
    repeat split; try reflexivity. exact F.
Qed.

Lemma stop_after_bias_shows_old_peak_witness :
  exists l' evs shown,
    yields (passes (mkInputs 4 512 :: [idle_inp 600; mkInputs 4 1023]
                    ++ [mkInputs 2 0])
                   (mkLocals 450 450 None (S754_zero false) 1))
           l' (evs ++ peak_screen shown)
    /\ mode_of (state l') = Some Stopped
    /\ peakVoltage l' = peakVoltage (mkLocals 450 450 None (S754_zero false) 1)
    /\ peak l'
       = reconstruct (peakVoltage (mkLocals 450 450 None (S754_zero false) 1))
                     peakProfile
    /\ format_volt
         (reconstruct (peakVoltage (mkLocals 450 450 None (S754_zero false) 1))
                      peakProfile) = Some shown.
Proof.
  apply (stop_after_bias_shows_old_peak (mkInputs 4 512)
           [idle_inp 600; mkInputs 4 1023] (mkInputs 2 0)
           (mkLocals 450 450 None (S754_zero false) 1));
    first [reflexivity | unfold acc_ok; cbn; lia].
Defined.

(** X8.  [Vread] is an [int]: a data-register value with bit 15 set is
    read as a negative sample, and in state 1 it never replaces an
    accumulator that is not negative. *)
Theorem negative_sample_ignored inp l :
  state l = 1 -> no_button inp = true ->
  32768 <= ADC inp mod 65536 -> 0 <= peakVoltage l ->
  exists l',
    yields (loop_body inp l) l' []
    /\ Vread l' = ADC inp mod 65536 - 65536
    /\ Vread l' < 0
    /\ peakVoltage l' = peakVoltage l.
Proof.
  intros S N Hbig Hpv.
  assert (Es : sample_of inp = ADC inp mod 65536 - 65536).
  { unfold sample_of, C.uint16_to_int, C.to_uint16, C.INT_MAX.
    rewrite Z.mod_mod by lia.
    destruct (Z.leb_spec (ADC inp mod 65536) 32767); [lia | reflexivity]. }
  pose proof (Z.mod_pos_bound (ADC inp) 65536 ltac:(lia)) as B.
  eexists. split; [apply pass_none; [exact N | now apply yields_mode_acquiring]|].
  cbn [Vread peakVoltage]. rewrite Es. repeat split; lia.
Qed.

Lemma negative_sample_ignored_witness :
  exists l',
    yields (loop_body (idle_inp 40000) (mkLocals 300 300 None (S754_zero false) 1))
           l' []
    /\ Vread l' = ADC (idle_inp 40000) mod 65536 - 65536
    /\ Vread l' < 0
    /\ peakVoltage l' = peakVoltage (mkLocals 300 300 None (S754_zero false) 1).
Proof.
  apply (negative_sample_ignored (idle_inp 40000)
           (mkLocals 300 300 None (S754_zero false) 1));
    first [reflexivity | cbn; lia].
Defined.

(** * Further properties of the voltages shown *)

(** X9.  What is shown against the exact calibration: for every 10-bit
    code the text for the peak voltage is the exact value
    code * 1.1 * ((495.2 + 101.65) / 101.65) / 1023 cut to millivolts;
    the text for the bias voltage is the exact value
    code * 5.0 * ((498.1 + 101.8) / 101.8) / 1023 cut to millivolts for
    every code but 824, where the exact value is just above 23.733 and
    the text is "23.732 V", one millivolt less. *)
Theorem shown_is_exact_millivolts :
  (forall s,
     0 <= s <= 1023 ->
     format_volt (peak_volts s)
     = Some (millivolt_text (millivolts (exact_peak_volts s))))
  /\ (forall s,
        0 <= s <= 1023 -> s <> 824 ->
        format_volt (bias_volts s)
        = Some (millivolt_text (millivolts (exact_bias_volts s))))
  /\ millivolts (exact_bias_volts 824) = 23733
  /\ format_volt (bias_volts 824) = Some "23.732 V"%string.
Proof.
  split; [|split; [|split; vm_compute; reflexivity]].
  - intros s Hs.
    assert (K : shows_text (peak_volts s)
                  (millivolt_text (millivolts (exact_peak_volts s))) = true).
    { apply (all_below_spec 1024
               (fun s => shows_text (peak_volts s)
                           (millivolt_text (millivolts (exact_peak_volts s)))));
        [vm_compute; reflexivity | lia]. }
    unfold shows_text in K.
    destruct (format_volt (peak_volts s)) as [t|]; [|discriminate K].
    apply String.eqb_eq in K. now subst.
  - intros s Hs Ns.
    assert (K : (s =? 824)
                || shows_text (bias_volts s)
                     (millivolt_text (millivolts (exact_bias_volts s)))
                = true).
    { apply (all_below_spec 1024
               (fun s => (s =? 824)
                         || shows_text (bias_volts s)
                              (millivolt_text
                                 (millivolts (exact_bias_volts s)))));
        [vm_compute; reflexivity | lia]. }
    apply orb_true_iff in K. destruct K as [K|K];
      [apply Z.eqb_eq in K; contradiction|].
    unfold shows_text in K.
    destruct (format_volt (bias_volts s)) as [t|]; [|discriminate K].
    apply String.eqb_eq in K. now subst.
Qed.

Lemma shown_is_exact_millivolts_witness :
  format_volt (peak_volts 450)
  = Some (millivolt_text (millivolts (exact_peak_volts 450))).
Proof.
  apply (proj1 shown_is_exact_millivolts 450). lia.
Defined.

(** The number shown grows strictly from each code to the next. *)
Lemma shown_value_increasing conv :
  all_below 1023
    (fun s => match shown_value conv s, shown_value conv (s + 1) with
              | Some x, Some y => x <? y
              | _, _ => false
              end) = true ->
  forall s t,
    0 <= s -> s < t -> t <= 1023 ->
    exists x y,
      shown_value conv s = Some x /\ shown_value conv t = Some y /\ x < y.
Proof.
  intros T. pose proof (all_below_spec _ _ T) as A. cbv beta in A. clear T.
  intros s t Hs Hst Ht.
  replace t with (s + 1 + Z.of_nat (Z.to_nat (t - s - 1))) in * by lia.
  induction (Z.to_nat (t - s - 1)) as [|n IH].
  - rewrite Z.add_0_r. specialize (A s ltac:(lia)).
    destruct (shown_value conv s) as [x|]; [|discriminate A].
    destruct (shown_value conv (s + 1)) as [y|]; [|discriminate A].
    exists x, y. apply Z.ltb_lt in A. now repeat split.
  - rewrite Nat2Z.inj_succ in *.
    destruct IH as (x & y & Ex & Ey & Hxy); [lia..|].
    specialize (A (s + 1 + Z.of_nat n) ltac:(lia)). rewrite Ey in A.
    replace (s + 1 + Z.succ (Z.of_nat n)) with (s + 1 + Z.of_nat n + 1) by lia.
    destruct (shown_value conv (s + 1 + Z.of_nat n + 1)) as [z|];
      [|discriminate A].
    exists x, z. apply Z.ltb_lt in A. repeat split; [exact Ex | lia].
Qed.

(** X10.  The display tells all 1024 codes apart: for both conversions,
    a larger code is shown as a strictly larger number, so two different
    codes never give the same text. *)
Theorem codes_shown_apart s t :
  0 <= s -> s < t -> t <= 1023 ->
  (exists a b,
     format_volt (peak_volts s) = Some a /\ format_volt (peak_volts t) = Some b
     /\ number_shown a < number_shown b /\ a <> b)
  /\ (exists a b,
        format_volt (bias_volts s) = Some a
        /\ format_volt (bias_volts t) = Some b
        /\ number_shown a < number_shown b /\ a <> b).
Proof.
  intros Hs Hst Ht. split.
  - destruct (shown_value_increasing peak_volts) with (s := s) (t := t)
      as (x & y & Ex & Ey & Hxy); [vm_compute; reflexivity | assumption..|].
    unfold shown_value in Ex, Ey.
    destruct (format_volt (peak_volts s)) as [a|]; [|discriminate Ex].
    destruct (format_volt (peak_volts t)) as [b|]; [|discriminate Ey].
    cbn in Ex, Ey. inversion Ex. inversion Ey. subst.
    exists a, b. repeat split; [exact Hxy|]. intros ->. lia.
  - destruct (shown_value_increasing bias_volts) with (s := s) (t := t)
      as (x & y & Ex & Ey & Hxy); [vm_compute; reflexivity | assumption..|].
    unfold shown_value in Ex, Ey.
    destruct (format_volt (bias_volts s)) as [a|]; [|discriminate Ex].
    destruct (format_volt (bias_volts t)) as [b|]; [|discriminate Ey].
    cbn in Ex, Ey. inversion Ex. inversion Ey. subst.
    exists a, b. repeat split; [exact Hxy|]. intros ->. lia.
Qed.

Lemma codes_shown_apart_witness :
  (exists a b,
     format_volt (peak_volts 823) = Some a
     /\ format_volt (peak_volts 824) = Some b
     /\ number_shown a < number_shown b /\ a <> b)
  /\ (exists a b,
        format_volt (bias_volts 823) = Some a
        /\ format_volt (bias_volts 824) = Some b
        /\ number_shown a < number_shown b /\ a <> b).
Proof.
  apply (codes_shown_apart 823 824); lia.
Defined.

(** * Further properties of [print_volt] *)

(** ** The characters written *)

Lemma is_digit_digit_char d : 0 <= d <= 9 -> is_digit (digit_char d) = true.
Proof.
  intros H.
  assert (E : d = 0 \/ d = 1 \/ d = 2 \/ d = 3 \/ d = 4 \/ d = 5 \/ d = 6
              \/ d = 7 \/ d = 8 \/ d = 9) by lia.
  repeat (destruct E as [->|E]; [reflexivity|]). now subst.
Qed.

Lemma chars_app (a b : string) :
  list_ascii_of_string (a ++ b)
  = (list_ascii_of_string a ++ list_ascii_of_string b)%list.
Proof. induction a as [|c a IH]; cbn; [reflexivity | now rewrite IH]. Qed.

Lemma utoa_aux_digits fuel :
  forall n acc,
    forallb is_digit (list_ascii_of_string acc) = true ->
    forallb is_digit (list_ascii_of_string (utoa_aux fuel n acc)) = true.
Proof.
  induction fuel as [|fuel IH]; intros n acc H; cbn [utoa_aux]; [exact H|].
  assert (D : forallb is_digit
                (list_ascii_of_string (String (digit_char (n mod 10)) acc))
              = true).
  { cbn [list_ascii_of_string forallb]. rewrite H, is_digit_digit_char;
      [reflexivity|].
    pose proof (Z.mod_pos_bound n 10 ltac:(lia)). lia. }
  destruct (n / 10 =? 0); [exact D | now apply IH].
Qed.

Lemma utoa_digits n : forallb is_digit (list_ascii_of_string (utoa n)) = true.
Proof. unfold utoa. now apply utoa_aux_digits. Qed.

Lemma digit_allowed c : is_digit c = true -> allowed_char c = true.
Proof. unfold allowed_char. now intros ->. Qed.

Lemma utoa_allowed n :
  forallb allowed_char (list_ascii_of_string (utoa n)) = true.
Proof.
  pose proof (utoa_digits n) as H. rewrite forallb_forall in *.
  intros c Hc. now apply digit_allowed, H.
Qed.

(** X11.  Whatever the voltage, the text [print_volt] writes is made of
    decimal digits, the point, a space and "V" only; in particular it
    never contains a minus sign, also for a negative voltage. *)
Theorem print_volt_alphabet v txt :
  format_volt v = Some txt ->
  forallb allowed_char (list_ascii_of_string txt) = true
  /\ ~ In "-"%char (list_ascii_of_string txt).
Proof.
  intros E.
  assert (A : forallb allowed_char (list_ascii_of_string txt) = true).
  { unfold format_volt in E.
    destruct (to_int v) as [intV|]; [|discriminate E]. cbv zeta in E.
    destruct (to_int _) as [decV|]; [|discriminate E].
    rewrite number_text in E.
    destruct (_ <? 16); [|discriminate E]. inversion E as [T]. clear E T.
    rewrite chars_app, forallb_app, utoa_allowed. cbn [andb].
    unfold fraction_text.
    destruct (decV <? 10); [|destruct (decV <? 100)];
      cbn [append list_ascii_of_string forallb];
      rewrite chars_app, forallb_app, utoa_allowed; reflexivity. }
  split; [exact A|]. intros I. rewrite forallb_forall in A.
  specialize (A _ I). discriminate A.
Qed.

Lemma print_volt_alphabet_witness :
  forallb allowed_char (list_ascii_of_string "0.0065036 V") = true
  /\ ~ In "-"%char (list_ascii_of_string "0.0065036 V").
Proof.
  apply (print_volt_alphabet (dec_lit (-5) 10)). vm_compute. reflexivity.
Defined.

(** ** Negative voltages: rounding does not look at the sign *)

Lemma round_aux_opp m e l :
  binary_round_aux prec emax true m e l
  = SFopp (binary_round_aux prec emax false m e l).
Proof.
  unfold binary_round_aux.
  destruct (shr_fexp prec emax m e l) as [mrs' e'].
  destruct (shr_fexp prec emax _ e' loc_Exact) as [mrs'' e''].
  destruct (shr_m mrs''); [reflexivity | | reflexivity].
  destruct (e'' <=? emax - prec); reflexivity.
Qed.

Lemma binary_round_opp m e :
  binary_round prec emax true m e = SFopp (binary_round prec emax false m e).
Proof.
  unfold binary_round. destruct (shl_align _ _ _) as [mz ez].
  apply round_aux_opp.
Qed.

Lemma SFopp_involutive x : SFopp (SFopp x) = x.
Proof. destruct x as [s|s| |s m e]; cbn; now rewrite ?negb_involutive. Qed.

Lemma fmul_opp m e c ec :
  fmul (S754_finite true m e) (S754_finite false c ec)
  = SFopp (fmul (S754_finite false m e) (S754_finite false c ec)).
Proof. unfold fmul, SFmul. cbn [xorb]. apply round_aux_opp. Qed.

Lemma fsub_opp_same_exponent m1 m2 e :
  fsub (S754_finite true m1 e) (S754_finite true m2 e)
  = if Zpos m1 =? Zpos m2 then S754_zero false
    else SFopp (fsub (S754_finite false m1 e) (S754_finite false m2 e)).
Proof.
  rewrite fsub_same_exponent. unfold fsub, SFsub. rewrite Z.min_id.
  unfold shl_align. rewrite Z.sub_diag. cbn [fst cond_Zopp].
  replace (- Zpos m1 - - Zpos m2) with (- (Zpos m1 - Zpos m2)) by lia.
  destruct (Z.eqb_spec (Zpos m1) (Zpos m2)) as [E|N].
  - rewrite E, Z.sub_diag. reflexivity.
  - destruct (Zpos m1 - Zpos m2) as [|r|r] eqn:D; [lia | |];
      cbn [Z.opp binary_normalize].
    + apply binary_round_opp.
    + now rewrite binary_round_opp, SFopp_involutive.
Qed.

Lemma to_int_opp x d :
  to_int x = Some d -> - 32767 <= d -> to_int (SFopp x) = Some (- d).
Proof.
  unfold to_int, trunc, C.in_int, C.INT_MIN, C.INT_MAX.
  destruct x as [s|s| |s m e]; cbn [SFopp]; try discriminate.
  - intros E _. inversion E. reflexivity.
  - set (t := if 0 <=? e then Zpos m * 2 ^ e else Zpos m / 2 ^ (- e)).
    intros E Hd.
    destruct ((-32768 <=? cond_Zopp s t) && (cond_Zopp s t <=? 32767)) eqn:B;
      [|discriminate E].
    inversion E as [Ed]. apply andb_true_iff in B. destruct B as [B1 B2].
    apply Z.leb_le in B1, B2.
    assert (O : cond_Zopp (negb s) t = - cond_Zopp s t)
      by (destruct s; cbn; lia).
    rewrite O.
    replace ((-32768 <=? - cond_Zopp s t) && (- cond_Zopp s t <=? 32767))
      with true; [reflexivity|].
    symmetry. apply andb_true_iff. split; apply Z.leb_le; lia.
Qed.

(** ** The fraction of any number with a negative exponent *)

(** For a positive binary32 number [m * 2^e] with [e < 0]: its integer
    part [i], converted back, has the same exponent, and the difference is
    exact: zero or a binary32 number below 1. *)
Lemma fraction_parts m e :
  valid (S754_finite false m e) = true -> e <= -1 ->
  let i := Zpos m / 2 ^ (- e) in
  0 <= i
  /\ (i = 0 /\ Zpos m < 2 ^ (- e)
      \/ exists M, of_Z i = S754_finite false M e /\ Zpos M = i * 2 ^ (- e))
  /\ (fsub (S754_finite false m e) (of_Z i) = S754_zero false
      \/ exists mf ef,
           fsub (S754_finite false m e) (of_Z i) = S754_finite false mf ef
           /\ Zpos mf < 2 ^ 24 /\ -149 <= ef <= -1
           /\ Zpos mf < 2 ^ (- ef)).
Proof.
  intros V He i. destruct (valid_finite _ _ _ V) as (Hm & Hr & Hc). clear V.
  set (k := - e) in *.
  assert (Pk : 0 < 2 ^ k) by (apply Z.pow_pos_nonneg; lia).
  pose proof (Z.div_mod (Zpos m) (2 ^ k) ltac:(lia)) as DM.
  pose proof (Z.mod_pos_bound (Zpos m) (2 ^ k) Pk) as MB.
  fold i in DM.
  assert (Hi : 0 <= i) by (apply Z.div_pos; lia).
  split; [exact Hi|].
  destruct (Z.eq_dec i 0) as [I0|I0].
  { rewrite I0 in *. split; [left; split; [reflexivity | lia]|].
    right. exists m, e. split; [reflexivity|]. fold k. repeat split; lia. }
  destruct i as [|ip|ip] eqn:Ei; try lia.
  assert (Hk : k <= 23).
  { destruct (Z.le_gt_cases k 23) as [|G]; [assumption|].
    assert (2 ^ 24 <= 2 ^ k) by (apply Z.pow_le_mono_r; lia). nia. }
  assert (Hd : Zpos (digits2_pos m) = 24) by lia.
  pose proof (digits_bounds m) as [Lm _]. rewrite Hd in Lm.
  change (2 ^ (24 - 1)) with (2 ^ 23) in Lm.
  assert (E23 : 2 ^ 23 = 2 ^ (23 - k) * 2 ^ k)
    by (rewrite <- Z.pow_add_r by lia; f_equal; lia).
  assert (E24 : 2 ^ 24 = 2 ^ (24 - k) * 2 ^ k)
    by (rewrite <- Z.pow_add_r by lia; f_equal; lia).
  assert (P23 : 0 < 2 ^ (23 - k)) by (apply Z.pow_pos_nonneg; lia).
  assert (Dip : Zpos (digits2_pos ip) = 24 - k).
  { apply Z.le_antisymm.
    - apply digits_le; [lia|]. nia.
    - replace (24 - k) with (23 - k + 1) by lia. apply digits_ge; [lia|]. nia. }
  destruct (binary_round_exact false ip 0) as (M & EM & VM & _);
    try (rewrite fexp32; lia).
  rewrite fexp32 in EM, VM.
  replace (Z.max (Zpos (digits2_pos ip) + 0 - 24) (-149)) with e in * by lia.
  replace (0 - e) with k in VM by lia.
  change (of_Z (Zpos ip)) with (binary_round prec emax false ip 0).
  split; [right; exists M; split; [exact EM | exact VM]|].
  rewrite EM, fsub_same_exponent.
  destruct (Zpos m - Zpos M) as [|r|r] eqn:ER; try lia.
  { left. reflexivity. }
  right. cbn [binary_normalize].
  assert (Hr2 : Zpos r < 2 ^ k) by lia.
  assert (Dr : Zpos (digits2_pos r) <= k) by (apply digits_le; lia).
  destruct (binary_round_exact false r e) as (M' & EM' & VM' & DM');
    try (rewrite fexp32; lia).
  rewrite fexp32 in EM', VM', DM'.
  set (fe := Z.max (Zpos (digits2_pos r) + e - 24) (-149)) in *.
  assert (Hfe : -149 <= fe <= e /\ Zpos (digits2_pos r) + e - 24 <= fe)
    by (unfold fe; lia).
  clearbody fe. exists M', fe. split; [exact EM'|].
  assert (Pf : 0 < 2 ^ (e - fe)) by (apply Z.pow_pos_nonneg; lia).
  assert (Ef : 2 ^ (- fe) = 2 ^ k * 2 ^ (e - fe))
    by (rewrite <- Z.pow_add_r by lia; f_equal; lia).
  pose proof (digits_bounds M') as [_ UM'].
  assert (U24 : 2 ^ Zpos (digits2_pos M') <= 2 ^ 24)
    by (apply Z.pow_le_mono_r; lia).
  split; [lia|]. split; [lia|].
  rewrite Ef, VM'. now apply Z.mul_lt_mono_pos_r.
Qed.

(** ** Where [print_volt] is defined *)

Lemma fraction_text_length decV :
  (String.length (fraction_text decV) <= 10)%nat.
Proof.
  unfold fraction_text. pose proof (utoa_length decV).
  destruct (decV <? 10); [|destruct (decV <? 100)];
    cbn [append String.length]; rewrite length_app; cbn [String.length]; lia.
Qed.

(** Once both casts are defined the text is written, and it fits the
    buffer of 16 characters with its terminator. *)
Lemma format_volt_any v intV decV :
  to_int v = Some intV ->
  to_int (fmul (fsub v (of_Z intV)) (of_Z 1000)) = Some decV ->
  format_volt v = Some (utoa intV ++ fraction_text decV)%string
  /\ (String.length (utoa intV ++ fraction_text decV) <= 15)%nat.
Proof.
  intros E1 E2.
  assert (L : (String.length (utoa intV ++ fraction_text decV) <= 15)%nat).
  { rewrite length_app. pose proof (utoa_length intV).
    pose proof (fraction_text_length decV). lia. }
  split; [|exact L].
  unfold format_volt. rewrite E1. cbv zeta. rewrite E2, number_text.
  replace (Z.of_nat (String.length (utoa intV ++ fraction_text decV)) <? 16)
    with true; [reflexivity|].
  symmetry. apply Z.ltb_lt. lia.
Qed.

Lemma fmul_1000_opp mf ef d :
  to_int (fmul (S754_finite false mf ef) (of_Z 1000)) = Some d ->
  0 <= d <= 999 ->
  to_int (fmul (S754_finite true mf ef) (of_Z 1000)) = Some (- d).
Proof.
  intros E Hd. change (of_Z 1000) with (S754_finite false 16384000 (-14)) in *.
  rewrite fmul_opp. apply to_int_opp; [exact E | lia].
Qed.

(** The casts of [print_volt] on a negative number whose integer part
    fits [int]. *)
Lemma negative_casts m e intV :
  valid (S754_finite true m e) = true ->
  to_int (S754_finite true m e) = Some intV ->
  -32768 <= intV <= 0
  /\ exists decV,
       to_int (fmul (fsub (S754_finite true m e) (of_Z intV)) (of_Z 1000))
       = Some decV
       /\ -999 <= decV <= 0.
Proof.
  intros V T. destruct (valid_finite _ _ _ V) as (Hm & Hr & Hc).
  assert (Vp : valid (S754_finite false m e) = true) by exact V. clear V.
  unfold to_int, trunc in T. cbn [cond_Zopp] in T.
  destruct (C.in_int _) eqn:B; [|discriminate T]. inversion T as [Ti]. clear T.
  unfold C.in_int, C.INT_MIN, C.INT_MAX in B.
  apply andb_true_iff in B. destruct B as [B1 B2]. apply Z.leb_le in B1, B2.
  destruct (Z.leb_spec 0 e) as [G|G].
  { exfalso. destruct Hc as [Hd|]; [|lia].
    pose proof (digits_bounds m) as [Lo _]. rewrite Hd in Lo.
    change (2 ^ (24 - 1)) with 8388608 in Lo.
    assert (0 < 2 ^ e) by (apply Z.pow_pos_nonneg; lia). nia. }
  destruct (fraction_parts m e Vp ltac:(lia)) as (Hi & A & F).
  cbv zeta in Hi, A, F. set (i := Zpos m / 2 ^ (- e)) in *.
  split; [lia|].
  destruct A as [[I0 Hlt] | (M & EM & VM)].
  - (* integer part zero: the number itself is the fraction *)
    rewrite I0. change (- 0) with 0. change (of_Z 0) with (S754_zero false).
    change (fsub (S754_finite true m e) (S754_zero false))
      with (S754_finite true m e).
    destruct (times_1000 m e Hm ltac:(lia) Hlt) as (d & Td & Hd).
    exists (- d). split; [now apply fmul_1000_opp | lia].
  - assert (Ip : 0 < i).
    { assert (0 < 2 ^ (- e)) by (apply Z.pow_pos_nonneg; lia). nia. }
    assert (EN : of_Z (- i) = S754_finite true M e).
    { destruct i as [|ip|ip]; try lia. cbn [Z.opp].
      change (of_Z (Zneg ip)) with (binary_round prec emax true ip 0).
      rewrite binary_round_opp.
      change (binary_round prec emax false ip 0) with (of_Z (Zpos ip)).
      now rewrite EM. }
    rewrite EN, fsub_opp_same_exponent. rewrite <- EM.
    destruct (Zpos m =? Zpos M).
    + exists 0. split; [reflexivity | lia].
    + destruct F as [F0 | (mf & ef & F1 & Hmf & Hef & Hlt)].
      * rewrite F0. exists 0. split; [reflexivity | lia].
      * rewrite F1. cbn [SFopp negb].
        destruct (times_1000 mf ef Hmf Hef Hlt) as (d & Td & Hd).
        exists (- d). split; [now apply fmul_1000_opp | lia].
Qed.

(** A positive number whose integer part fits [int] has exponent at most
    -9. *)
Lemma positive_in_int m e intV :
  valid (S754_finite false m e) = true ->
  to_int (S754_finite false m e) = Some intV -> e <= -9.
Proof.
  intros V T. destruct (valid_finite _ _ _ V) as (Hm & Hr & Hc). clear V.
  unfold to_int, trunc in T. cbn [cond_Zopp] in T.
  destruct (C.in_int _) eqn:B; [|discriminate T]. clear T.
  unfold C.in_int, C.INT_MIN, C.INT_MAX in B.
  apply andb_true_iff in B. destruct B as [_ B2]. apply Z.leb_le in B2.
  destruct (Z.le_gt_cases e (-9)) as [|G]; [assumption|]. exfalso.
  destruct Hc as [Hd|]; [|lia].
  pose proof (digits_bounds m) as [Lo _]. rewrite Hd in Lo.
  change (2 ^ (24 - 1)) with 8388608 in Lo.
  destruct (Z.leb_spec 0 e) as [G0|G0].
  - assert (0 < 2 ^ e) by (apply Z.pow_pos_nonneg; lia). nia.
  - assert (P : 0 < 2 ^ (- e)) by (apply Z.pow_pos_nonneg; lia).
    assert (2 ^ (- e) <= 2 ^ 8) by (apply Z.pow_le_mono_r; lia).
    change (2 ^ 8) with 256 in *.
    assert (32768 <= Zpos m / 2 ^ (- e)); [|lia].
    apply Z.div_le_lower_bound; [exact P | nia].
Qed.

Lemma utoa_wraps n : atou (utoa n) = n mod 65536.
Proof.
  assert (E : utoa n = utoa (n mod 65536))
    by (unfold utoa, C.to_uint16; now rewrite Z.mod_mod).
  rewrite E. apply utoa_decimal.
  pose proof (Z.mod_pos_bound n 65536 ltac:(lia)). lia.
Qed.

(** X12.  For every valid binary32 voltage, [print_volt] is undefined
    exactly when the first cast, [(int) voltage], is: whenever the
    integer part fits [int], the second cast is defined too (the scaled
    fraction lies within -999 .. 999) and the text has at most 15
    characters, so the buffer of 16 is never overrun.  A negative voltage
    is written with the first format: [%u] prints the integer part and
    the scaled fraction modulo 65536, after ".00". *)
Theorem print_volt_domain v :
  valid v = true ->
  (format_volt v = None <-> to_int v = None)
  /\ (forall intV,
        to_int v = Some intV ->
        exists decV,
          to_int (fmul (fsub v (of_Z intV)) (of_Z 1000)) = Some decV
          /\ -999 <= decV <= 999
          /\ format_volt v = Some (utoa intV ++ fraction_text decV)%string
          /\ (String.length (utoa intV ++ fraction_text decV) <= 15)%nat)
  /\ (forall intV,
        fltb v (S754_zero false) = true -> to_int v = Some intV ->
        exists decV,
          -32768 <= intV <= 0 /\ -999 <= decV <= 0
          /\ format_volt v
             = Some (utoa intV ++ ".00" ++ utoa decV ++ " V")%string
          /\ atou (utoa intV) = intV mod 65536
          /\ atou (utoa decV) = decV mod 65536).
Proof.
  intros V.
  assert (D : forall intV,
             to_int v = Some intV ->
             exists decV,
               to_int (fmul (fsub v (of_Z intV)) (of_Z 1000)) = Some decV
               /\ -999 <= decV <= 999
               /\ (fltb v (S754_zero false) = true ->
                   -32768 <= intV <= 0 /\ decV <= 0)).
  { intros intV T. destruct v as [s|s| |[|] m e]; try discriminate T.
    - inversion T. subst intV. exists 0.
      split; [destruct s; reflexivity|]. split; [lia|]. discriminate.
    - destruct (negative_casts m e intV V T) as (Hi & decV & Td & Hd).
      exists decV. split; [exact Td|]. split; [lia|]. intros _. lia.
    - pose proof (positive_in_int m e intV V T) as He.
      destruct (format_volt_finite m e V He)
        as (i & decV & Ti & _ & _ & _ & Td & Hd).
      rewrite Ti in T. inversion T. subst i.
      exists decV. split; [exact Td|]. split; [lia|]. discriminate. }
  split; [|split].
  - split.
    + intros F. destruct (to_int v) as [intV|] eqn:T; [|reflexivity].
      destruct (D intV eq_refl) as (decV & Td & _).
      destruct (format_volt_any v intV decV T Td) as [F' _].
      rewrite F' in F. discriminate F.
    + intros T. unfold format_volt. now rewrite T.
  - intros intV T. destruct (D intV T) as (decV & Td & Hd & _).
    exists decV. split; [exact Td|]. split; [exact Hd|].
    now apply format_volt_any.
  - intros intV N T. destruct (D intV T) as (decV & Td & Hd & Hn).
    destruct (Hn N) as [Hi Hneg]. exists decV.
    split; [exact Hi|]. split; [lia|].
    destruct (format_volt_any v intV decV T Td) as [F _].
    rewrite F. unfold fraction_text.
    destruct (Z.ltb_spec decV 10); [|lia].
    split; [reflexivity|]. split; apply utoa_wraps.
Qed.

Lemma print_volt_domain_witness :
  exists decV,
    -32768 <= -1 <= 0 /\ -999 <= decV <= 0
    /\ format_volt (dec_lit (-15) 10)
       = Some (utoa (-1) ++ ".00" ++ utoa decV ++ " V")%string
    /\ atou (utoa (-1)) = -1 mod 65536
    /\ atou (utoa decV) = decV mod 65536.
Proof.
  destruct (print_volt_domain (dec_lit (-15) 10)) as (_ & _ & N);
    [vm_compute; reflexivity|].
  apply (N (-1)); vm_compute; reflexivity.
Defined.
